(** * UREC capacity tracker: the occupancy counters and their callers

    A shallow embedding of the counter code of the repository:
    - [models.py]: the pydantic models [AreaCapacity], [CapacityResponse]
      and [UpdateCapacityRequest] with their validators;
    - [capacity_updater.py]: the Lambda's [update_capacity] and its
      [lambda_handler];
    - [database.py]: [DynamoDBManager] ([get_all_areas], [get_area],
      [update_capacity], [set_capacity], [create_area]);
    - [main.py]: the FastAPI endpoints built on the manager;
    - [init_database.py]: [seed_areas] and [verify_setup].

    The DynamoDB table is the state.  It is a finite map from the composite
    key (PK, SK) to a row; [get_item], [put_item], [update_item] and [scan]
    follow the service's documented behaviour, in particular [update_item]
    edits the row under the key or creates it when there is none, and each
    single request is atomic on its row.

    Conventions.
    - Numbers are integers [Z].  The modules [capacity_updater], [database]
      and [main] describe the requests once they have reached the table, on
      numbers of at most 38 digits.  boto3 refuses to serialise a longer
      integer before any request is sent: [boto3.serialize_n] models that,
      and the module [sdk] gives the writers with the serializer in front;
      they agree with the plain ones on numbers in range.  The service's
      own limit on the numbers it stores is not modelled: the theorems on
      [sdk] keep the stored counts below 10^38.
    - Storage failures (throttling, network) are modelled where the code
      handles them, in [init_database.seed_areas]; elsewhere a request to
      the table always answers.
    - [datetime.utcnow().isoformat()] is an argument [now] of every
      operation, read once per call.
    - Log lines are dropped. *)

From stdpp Require Import gmap strings list fin_maps sorting.
From Stdlib Require Import ZArith Lia Ascii.

Open Scope Z_scope.

(** ** Python exceptions and results *)

Inductive exn :=
| KeyError (key : string)
| ValidationError (fields : list string)
| Exception (msg : string).

(** A computation that returns [a] or raises [e]. *)
Definition result (A : Type) : Type := exn + A.

Definition ret {A} (a : A) : result A := inr a.
Definition raise {A} (e : exn) : result A := inl e.

Definition bind {A B} (r : result A) (k : A -> result B) : result B :=
  match r with
  | inl e => inl e
  | inr a => k a
  end.

Notation "'let*' x := r 'in' k" := (bind r (fun x => k))
  (at level 10, x name, r at level 100, k at level 200, only parsing).

(** [d[key]] on a dict whose entry may be missing. *)
Definition getitem {A} (key : string) (o : option A) : result A :=
  match o with
  | Some a => ret a
  | None => raise (KeyError key)
  end.

(** [str.lower()], on ASCII letters. *)
Definition lower_ascii (c : ascii) : ascii :=
  let n := nat_of_ascii c in
  if ((65 <=? n) && (n <=? 90))%nat then ascii_of_nat (n + 32) else c.

Fixpoint lower (s : string) : string :=
  match s with
  | EmptyString => EmptyString
  | String c s' => String (lower_ascii c) (lower s')
  end.

(** ** models.py *)

Module AreaCapacity.
Record t := make {
  area_id : string;
  name : string;
  current_count : Z;
  max_capacity : Z;
  is_open : bool;
  last_updated : string
}.

(** The field constraints [current_count: ge=0] and [max_capacity: gt=0];
    the [validate_current_count] validator returns its argument in every
    branch.  A failed construction reports every offending field. *)
Definition validate (a : t) : result t :=
  let errs :=
    (if current_count a <? 0 then ["current_count"%string] else []) ++
    (if max_capacity a <=? 0 then ["max_capacity"%string] else []) in
  match errs with
  | [] => ret a
  | _ => raise (ValidationError errs)
  end.
End AreaCapacity.

Module CapacityResponse.
Record t := make {
  timestamp : string;
  areas : list AreaCapacity.t
}.
End CapacityResponse.

Module UpdateCapacityRequest.
Record t := make {
  area_id : string;
  action : string;
  count : Z;
  timestamp : option string
}.

(** [validate_action] lowers the action and accepts "enter" and "exit";
    [count] has [ge=1, le=10]. *)
Definition validate (a : t) : result t :=
  let act := lower (action a) in
  let errs :=
    (if decide (act = "enter"%string \/ act = "exit"%string)
     then [] else ["action"%string]) ++
    (if (count a <? 1) || (10 <? count a) then ["count"%string] else []) in
  match errs with
  | [] => ret (make (area_id a) act (count a) (timestamp a))
  | _ => raise (ValidationError errs)
  end.
End UpdateCapacityRequest.

(** ** The DynamoDB table *)

Module Item.
(** A row, with the attributes of [models.DynamoDBItem] and the Lambda's
    [update_count].  The key attributes are always there; every other
    attribute is optional, because [update_item] creates a row that holds
    only the key and the attributes its expression sets. *)
Record t := make {
  PK : string;
  SK : string;
  area_id : option string;
  name : option string;
  current_count : option Z;
  max_capacity : option Z;
  is_open : option bool;
  last_updated : option string;
  created_at : option string;
  update_count : option Z
}.

Definition key_only (pk sk : string) : t :=
  make pk sk None None None None None None None None.

Definition set_current_count (v : Z) (i : t) : t :=
  make (PK i) (SK i) (area_id i) (name i) (Some v) (max_capacity i)
       (is_open i) (last_updated i) (created_at i) (update_count i).

Definition set_last_updated (v : string) (i : t) : t :=
  make (PK i) (SK i) (area_id i) (name i) (current_count i) (max_capacity i)
       (is_open i) (Some v) (created_at i) (update_count i).

Definition set_update_count (v : Z) (i : t) : t :=
  make (PK i) (SK i) (area_id i) (name i) (current_count i) (max_capacity i)
       (is_open i) (last_updated i) (created_at i) (Some v).
End Item.

Abbreviation Table := (gmap (string * string) Item.t).

Module dynamodb.
Definition get_item (key : string * string) (tbl : Table) : option Item.t :=
  tbl !! key.

(** [put_item] writes the whole row under the row's own key and replaces
    whatever was there: no condition expression is ever passed. *)
Definition put_item (item : Item.t) (tbl : Table) : Table :=
  <[(Item.PK item, Item.SK item) := item]> tbl.

(** [update_item(Key, UpdateExpression, ReturnValues='ALL_NEW')]: the
    expression [upd] is applied to the row under [key], or to a fresh row
    holding only the key; the new row is stored, and the response carries
    it under 'Attributes'.  One indivisible step. *)
Record response := { Attributes : option Item.t }.

Definition update_item (key : string * string) (upd : Item.t -> Item.t)
    (tbl : Table) : Table * response :=
  let old := default (Item.key_only key.1 key.2) (tbl !! key) in
  let new := upd old in
  (<[key := new]> tbl, {| Attributes := Some new |}).

(** [scan(FilterExpression=...)], in the map's order. *)
Definition scan (keep : Item.t -> bool) (tbl : Table) : list Item.t :=
  filter (fun i => keep i = true) (map_to_list tbl).*2.

(** *** The update expressions of the repository *)

(** [SET current_count = if_not_exists(current_count, :zero) + :inc,
     last_updated = :timestamp] *)
Definition add_count (inc : Z) (timestamp : string) (i : Item.t) : Item.t :=
  Item.set_last_updated timestamp
    (Item.set_current_count (default 0 (Item.current_count i) + inc) i).

(** [ADD update_count :one] *)
Definition add_update_count (one : Z) (i : Item.t) : Item.t :=
  Item.set_update_count (default 0 (Item.update_count i) + one) i.

(** [SET current_count = :zero] *)
Definition set_count (zero : Z) (i : Item.t) : Item.t :=
  Item.set_current_count zero i.

(** [SET current_count = :count, last_updated = :timestamp] *)
Definition set_count_stamp (count : Z) (timestamp : string) (i : Item.t)
    : Item.t :=
  Item.set_last_updated timestamp (Item.set_current_count count i).
End dynamodb.

(** The key of an area's row: [pk = f"AREA#{area_id}"], [sk = "METADATA"]. *)
Definition area_key (area_id : string) : string * string :=
  ("AREA#" +:+ area_id, "METADATA"%string).

(** ** boto3: numbers on their way to the table *)

Module boto3.
(** The largest integer the serializer takes is [limit - 1]. *)
Definition limit : Z := 10 ^ 38.

(** Any exception of [decimal]; which signal, and its text, are not
    modelled. *)
Definition DecimalException : exn := Exception "decimal.DecimalException".

(** [TypeSerializer] turns an [int] into a DynamoDB number with
    [DYNAMODB_CONTEXT.create_decimal]; the context has 38 digits of
    precision and traps [Inexact] and [Rounded], so an integer of 39
    digits or more raises. *)
Definition serialize_n (value : Z) : result Z :=
  if Z.abs value <? limit then ret value else raise DecimalException.

Fixpoint serialize (values : list Z) : result (list Z) :=
  match values with
  | [] => ret []
  | value :: values' =>
      let* n := serialize_n value in
      let* ns := serialize values' in
      ret (n :: ns)
  end.

(** [Table.update_item]: the numbers among [ExpressionAttributeValues] are
    serialised first; when one of them raises, no request is sent. *)
Definition update_item (values : list Z) (key : string * string)
    (upd : Item.t -> Item.t) (tbl : Table) : Table * result dynamodb.response :=
  match serialize values with
  | inl e => (tbl, raise e)
  | inr _ =>
      let '(tbl', response) := dynamodb.update_item key upd tbl in
      (tbl', ret response)
  end.
End boto3.

(** ** capacity_updater.py *)

(** The requests of [update_capacity] as the table receives them, for a
    count that boto3 serialises; [sdk.capacity_updater] has the same calls
    with the serializer of their values in front. *)

Module capacity_updater.
(** The first request of [update_capacity]: the atomic counter, and
    [updated_item = response['Attributes']]. *)
Definition update_capacity_add (area_id action : string) (count : Z)
    (now : string) (table : Table) : Table * result Item.t :=
  let increment := if decide (action = "enter"%string) then count else - count in
  let '(table', response) :=
    dynamodb.update_item (area_key area_id)
      (fun i => dynamodb.add_update_count 1 (dynamodb.add_count increment now i))
      table in
  (table', getitem "Attributes" (dynamodb.Attributes response)).

(** The rest of [update_capacity]: "Ensure count doesn't go below zero",
    a second request when the first one answered a negative count. *)
Definition update_capacity_floor (area_id : string) (updated_item : Item.t)
    (table : Table) : Table * result Item.t :=
  match getitem "current_count" (Item.current_count updated_item) with
  | inl e => (table, raise e)
  | inr c =>
      if c <? 0 then
        let '(table', response) :=
          dynamodb.update_item (area_key area_id) (dynamodb.set_count 0) table in
        (table', getitem "Attributes" (dynamodb.Attributes response))
      else (table, ret updated_item)
  end.

Definition update_capacity (area_id action : string) (count : Z)
    (now : string) (table : Table) : Table * result Item.t :=
  match update_capacity_add area_id action count now table with
  | (table1, inl e) => (table1, raise e)
  | (table1, inr updated_item) =>
      update_capacity_floor area_id updated_item table1
  end.
End capacity_updater.

(** ** database.py *)

(** The manager's requests as the table receives them; [sdk.database] has
    [set_capacity] and [update_capacity] with the serializer of their
    values in front. *)

Module database.
(** [self.table] is [None] when the connection could not be set up. *)
Record DynamoDBManager := { table : option Table }.

(** "Convert to AreaCapacity model": the block that [get_all_areas],
    [get_area], [update_capacity] and [set_capacity] each repeat.  The
    arguments are evaluated in order, so the first missing key raises. *)
Definition to_area (item : Item.t) (now : string) : result AreaCapacity.t :=
  let* area_id := getitem "area_id" (Item.area_id item) in
  let* name := getitem "name" (Item.name item) in
  let* current_count := getitem "current_count" (Item.current_count item) in
  let* max_capacity := getitem "max_capacity" (Item.max_capacity item) in
  AreaCapacity.validate
    (AreaCapacity.make area_id name current_count max_capacity
       (default true (Item.is_open item))
       (default now (Item.last_updated item))).

(** Rows that fail to convert are skipped ([continue]). *)
Definition get_all_areas (self : DynamoDBManager) (now : string)
    : result (list AreaCapacity.t) :=
  match table self with
  | None => ret []
  | Some tbl =>
      let items :=
        dynamodb.scan (fun i => bool_decide (Item.SK i = "METADATA"%string)) tbl in
      ret (omap (fun item =>
                   match to_area item now with
                   | inr area => Some area
                   | inl _ => None
                   end) items)
  end.

Definition get_area (self : DynamoDBManager) (area_id now : string)
    : result (option AreaCapacity.t) :=
  match table self with
  | None => ret None
  | Some tbl =>
      match dynamodb.get_item (area_key area_id) tbl with
      | None => ret None
      | Some item =>
          let* area := to_area item now in
          ret (Some area)
      end
  end.

Definition set_capacity (self : DynamoDBManager) (area_id : string)
    (count : Z) (now : string)
    : DynamoDBManager * result (option AreaCapacity.t) :=
  match table self with
  | None => (self, ret None)
  | Some tbl =>
      let '(tbl', response) :=
        dynamodb.update_item (area_key area_id)
          (dynamodb.set_count_stamp (Z.max 0 count) now) tbl in
      ({| table := Some tbl' |},
       match dynamodb.Attributes response with
       | None => ret None
       | Some item =>
           let* area := to_area item now in
           ret (Some area)
       end)
  end.

Definition update_capacity (self : DynamoDBManager) (area_id action : string)
    (now : string) : DynamoDBManager * result (option AreaCapacity.t) :=
  match table self with
  | None => (self, ret None)
  | Some tbl =>
      let increment := if decide (action = "enter"%string) then 1 else -1 in
      let '(tbl1, response) :=
        dynamodb.update_item (area_key area_id)
          (dynamodb.add_count increment now) tbl in
      let self1 := {| table := Some tbl1 |} in
      match dynamodb.Attributes response with
      | None => (self1, ret None)
      | Some item =>
          match getitem "current_count" (Item.current_count item) with
          | inl e => (self1, raise e)
          | inr c =>
              if c <? 0 then
                (* await self.set_capacity(area_id, 0); item['current_count'] = 0 *)
                let '(self2, r) := set_capacity self1 area_id 0 now in
                (self2,
                 let* _ := r in
                 let* area := to_area (Item.set_current_count 0 item) now in
                 ret (Some area))
              else
                (self1,
                 let* area := to_area item now in
                 ret (Some area))
          end
      end
  end.

(** The row is put first and the model is built after it, so a
    [max_capacity] that the model refuses is stored all the same. *)
Definition create_area (self : DynamoDBManager) (area_id name : string)
    (max_capacity : Z) (is_open : bool) (now : string)
    : DynamoDBManager * result AreaCapacity.t :=
  match table self with
  | None => (self, raise (Exception "DynamoDB table not initialized"))
  | Some tbl =>
      let timestamp := now in
      let item :=
        Item.make (area_key area_id).1 (area_key area_id).2
          (Some area_id) (Some name) (Some 0) (Some max_capacity)
          (Some is_open) (Some timestamp) (Some timestamp) None in
      ({| table := Some (dynamodb.put_item item tbl) |},
       AreaCapacity.validate
         (AreaCapacity.make area_id name 0 max_capacity is_open timestamp))
  end.
End database.

(** ** The writers, with the serializer in front *)

Module sdk.
Module capacity_updater.
(** [update_capacity] of [capacity_updater.py]; the first request carries
    [:inc], [:zero] and [:one], the corrective one [:zero]. *)
Definition update_capacity_add (area_id action : string) (count : Z)
    (now : string) (table : Table) : Table * result Item.t :=
  let increment := if decide (action = "enter"%string) then count else - count in
  match
    boto3.update_item [increment; 0; 1] (area_key area_id)
      (fun i => dynamodb.add_update_count 1 (dynamodb.add_count increment now i))
      table
  with
  | (table', inl e) => (table', raise e)
  | (table', inr response) =>
      (table', getitem "Attributes" (dynamodb.Attributes response))
  end.

Definition update_capacity_floor (area_id : string) (updated_item : Item.t)
    (table : Table) : Table * result Item.t :=
  match getitem "current_count" (Item.current_count updated_item) with
  | inl e => (table, raise e)
  | inr c =>
      if c <? 0 then
        match
          boto3.update_item [0] (area_key area_id) (dynamodb.set_count 0) table
        with
        | (table', inl e) => (table', raise e)
        | (table', inr response) =>
            (table', getitem "Attributes" (dynamodb.Attributes response))
        end
      else (table, ret updated_item)
  end.

Definition update_capacity (area_id action : string) (count : Z)
    (now : string) (table : Table) : Table * result Item.t :=
  match update_capacity_add area_id action count now table with
  | (table1, inl e) => (table1, raise e)
  | (table1, inr updated_item) =>
      update_capacity_floor area_id updated_item table1
  end.
End capacity_updater.

Module database.
(** [DynamoDBManager.set_capacity]; the request carries [:count], which
    is [max(0, count)]. *)
Definition set_capacity (self : database.DynamoDBManager) (area_id : string)
    (count : Z) (now : string)
    : database.DynamoDBManager * result (option AreaCapacity.t) :=
  match database.table self with
  | None => (self, ret None)
  | Some tbl =>
      match
        boto3.update_item [Z.max 0 count] (area_key area_id)
          (dynamodb.set_count_stamp (Z.max 0 count) now) tbl
      with
      | (tbl', inl e) => ({| database.table := Some tbl' |}, raise e)
      | (tbl', inr response) =>
          ({| database.table := Some tbl' |},
           match dynamodb.Attributes response with
           | None => ret None
           | Some item =>
               let* area := database.to_area item now in
               ret (Some area)
           end)
      end
  end.

(** [DynamoDBManager.update_capacity]; the request carries [:inc], which
    is 1 or -1, and [:zero]. *)
Definition update_capacity (self : database.DynamoDBManager)
    (area_id action : string) (now : string)
    : database.DynamoDBManager * result (option AreaCapacity.t) :=
  match database.table self with
  | None => (self, ret None)
  | Some tbl =>
      let increment := if decide (action = "enter"%string) then 1 else -1 in
      match
        boto3.update_item [increment; 0] (area_key area_id)
          (dynamodb.add_count increment now) tbl
      with
      | (tbl1, inl e) => ({| database.table := Some tbl1 |}, raise e)
      | (tbl1, inr response) =>
          let self1 := {| database.table := Some tbl1 |} in
          match dynamodb.Attributes response with
          | None => (self1, ret None)
          | Some item =>
              match getitem "current_count" (Item.current_count item) with
              | inl e => (self1, raise e)
              | inr c =>
                  if c <? 0 then
                    let '(self2, r) := set_capacity self1 area_id 0 now in
                    (self2,
                     let* _ := r in
                     let* area := database.to_area (Item.set_current_count 0 item) now in
                     ret (Some area))
                  else
                    (self1,
                     let* area := database.to_area item now in
                     ret (Some area))
              end
          end
      end
  end.
End database.
End sdk.

(** The integers the serializer takes. *)
Definition in_range (v : Z) : Prop := Z.abs v < boto3.limit.

(** ** main.py *)

Module main.
(** [detail] is either a fixed message or a prefix followed by [str(e)]. *)
Inductive detail :=
| Message (msg : string)
| Failed (prefix : string) (e : exn).

Record HTTPException := { status_code : Z; http_detail : detail }.

(** What an endpoint does: it returns a body or raises [HTTPException]. *)
Definition http (A : Type) : Type := HTTPException + A.

Definition not_found (area_id : string) : HTTPException :=
  {| status_code := 404;
     http_detail := Message ("Area '" +:+ area_id +:+ "' not found") |}.

Record UpdateResponse := {
  upd_success : bool;
  upd_area_id : string;
  upd_action : string;
  upd_new_count : Z;
  upd_timestamp : string
}.

Record ResetResponse := {
  success : bool;
  area_id : string;
  new_count : Z;
  timestamp : string
}.

Definition get_mock_capacity_data (now : string) : list AreaCapacity.t :=
  [ AreaCapacity.make "weight-room" "Weight Room" 45 100 true now;
    AreaCapacity.make "cardio" "Cardio Area" 32 60 true now;
    AreaCapacity.make "track" "Indoor Track" 18 50 true now;
    AreaCapacity.make "pool" "Swimming Pool" 12 40 true now;
    AreaCapacity.make "basketball" "Basketball Courts" 24 30 true now;
    AreaCapacity.make "climbing" "Climbing Wall" 8 15 true now ].

(** GET /api/capacity *)
Definition get_all_capacity (db : database.DynamoDBManager) (now : string)
    : http CapacityResponse.t :=
  match database.get_all_areas db now with
  | inl e =>
      inl {| status_code := 500;
             http_detail := Failed "Failed to fetch capacity data: " e |}
  | inr areas =>
      let areas :=
        match areas with
        | [] => get_mock_capacity_data now
        | _ => areas
        end in
      inr (CapacityResponse.make now areas)
  end.

(** GET /api/capacity/{area_id} *)
Definition get_area_capacity (area_id : string)
    (db : database.DynamoDBManager) (now : string) : http AreaCapacity.t :=
  match database.get_area db area_id now with
  | inl e =>
      inl {| status_code := 500;
             http_detail := Failed "Failed to fetch area capacity: " e |}
  | inr None => inl (not_found area_id)
  | inr (Some area) => inr area
  end.

(** POST /api/update.  [request.count] is not read. *)
Definition update_capacity (request : UpdateCapacityRequest.t)
    (db : database.DynamoDBManager) (now : string)
    : database.DynamoDBManager * http UpdateResponse :=
  let action := UpdateCapacityRequest.action request in
  let area_id := UpdateCapacityRequest.area_id request in
  if decide (action = "enter"%string \/ action = "exit"%string) then
    match database.update_capacity db area_id action now with
    | (db', inl e) =>
        (db', inl {| status_code := 500;
                     http_detail := Failed "Failed to update capacity: " e |})
    | (db', inr None) => (db', inl (not_found area_id))
    | (db', inr (Some updated_area)) =>
        (db', inr {| upd_success := true;
                     upd_area_id := area_id;
                     upd_action := action;
                     upd_new_count := AreaCapacity.current_count updated_area;
                     upd_timestamp := now |})
    end
  else
    (db, inl {| status_code := 400;
                http_detail := Message "Action must be 'enter' or 'exit'" |}).

(** POST /api/reset/{area_id}?count=... *)
Definition reset_area_capacity (area_id : string) (count : Z)
    (db : database.DynamoDBManager) (now : string)
    : database.DynamoDBManager * http ResetResponse :=
  match database.set_capacity db area_id count now with
  | (db', inl e) =>
      (db', inl {| status_code := 500;
                   http_detail := Failed "Failed to reset capacity: " e |})
  | (db', inr None) => (db', inl (not_found area_id))
  | (db', inr (Some updated_area)) =>
      (db', inr {| success := true;
                   area_id := area_id;
                   new_count := count;
                   timestamp := now |})
  end.
End main.

(** ** Concurrent invocations of the Lambda

    Each invocation of [capacity_updater.update_capacity] issues one or two
    requests; a request is atomic on the row, and requests of other
    invocations may run between the two. *)

Module concurrent.
Inductive call :=
| Start (area_id action : string) (count : Z) (now : string)
| Added (area_id : string) (updated_item : Item.t)
| Done (r : result Item.t).

Definition step_call (c : call) (table : Table) : option (Table * call) :=
  match c with
  | Start area_id action count now =>
      match capacity_updater.update_capacity_add area_id action count now table with
      | (table', inl e) => Some (table', Done (inl e))
      | (table', inr updated_item) => Some (table', Added area_id updated_item)
      end
  | Added area_id updated_item =>
      let '(table', r) :=
        capacity_updater.update_capacity_floor area_id updated_item table in
      Some (table', Done r)
  | Done _ => None
  end.

Definition state : Type := Table * list call.

(** Invocation [i] issues its next request. *)
Definition step (i : nat) (s : state) : option state :=
  match s.2 !! i with
  | None => None
  | Some c =>
      match step_call c s.1 with
      | None => None
      | Some (table', c') => Some (table', <[i := c']> s.2)
      end
  end.

(** A schedule names the invocation that moves at each step. *)
Fixpoint run (schedule : list nat) (s : state) : option state :=
  match schedule with
  | [] => Some s
  | i :: schedule' =>
      match step i s with
      | None => None
      | Some s' => run schedule' s'
      end
  end.

Definition is_done (c : call) : bool :=
  match c with Done _ => true | _ => false end.

Definition finished (s : state) : bool := forallb is_done s.2.
End concurrent.

(** ** Observations on the table *)

Definition stored (tbl : Table) (area_id : string) : option Item.t :=
  tbl !! area_key area_id.

Definition stored_count (tbl : Table) (area_id : string) : option Z :=
  stored tbl area_id ≫= Item.current_count.

Definition stored_update_count (tbl : Table) (area_id : string) : option Z :=
  stored tbl area_id ≫= Item.update_count.

(** [if_not_exists(current_count, :zero)] as seen from outside. *)
Definition count_or_zero (tbl : Table) (area_id : string) : Z :=
  default 0 (stored_count tbl area_id).

Arguments stored : simpl never.
Arguments stored_count : simpl never.
Arguments stored_update_count : simpl never.
Arguments count_or_zero : simpl never.

(** A row that converts to [AreaCapacity] whatever its count. *)
Definition registered (tbl : Table) (area_id : string) : Prop :=
  exists item id nm cap,
    stored tbl area_id = Some item /\
    Item.area_id item = Some id /\
    Item.name item = Some nm /\
    Item.max_capacity item = Some cap /\
    0 < cap.

(** ** Measures on concurrent invocations *)

(** 1 once the invocation has issued its atomic add, 0 before. *)
Definition added (c : concurrent.call) : Z :=
  match c with
  | concurrent.Start _ _ _ _ => 0
  | _ => 1
  end.

Definition progress (cs : list concurrent.call) : Z :=
  foldr (fun c acc => added c + acc) 0 cs.

(** The calls an entries-only run over area [a] can hold: an entry of one
    not yet issued, an answer that is not negative, or a finished call. *)
Definition entering (a : string) (c : concurrent.call) : Prop :=
  match c with
  | concurrent.Start a' action count _ =>
      a' = a /\ action = "enter"%string /\ count = 1
  | concurrent.Added a' item =>
      a' = a /\ exists k, Item.current_count item = Some k /\ 0 <= k
  | concurrent.Done _ => True
  end.

(** The invariant of an entries-only run from count [n0]. *)
Definition entries_inv (a : string) (n0 : Z) (s : concurrent.state) : Prop :=
  Forall (entering a) s.2 /\ count_or_zero s.1 a = n0 + progress s.2.

(** The count an observer reads once [schedule] has run every invocation
    to the end; [None] when the schedule is not a complete run. *)
Definition final_count (a : string) (schedule : list nat)
    (start : concurrent.state) : option Z :=
  match concurrent.run schedule start with
  | Some s' => if concurrent.finished s' then stored_count s'.1 a else None
  | None => None
  end.

(** The counts the invocations answered, in the order of the calls. *)
Definition answered_counts (schedule : list nat) (start : concurrent.state)
    : list (option Z) :=
  match concurrent.run schedule start with
  | Some s' =>
      map (fun c => match c with
                    | concurrent.Done (inr item) => Item.current_count item
                    | _ => None
                    end) s'.2
  | None => []
  end.

(** The signed change of one event: [count if action == 'enter' else -count]. *)
Definition increment_of (action : string) (count : Z) : Z :=
  if decide (action = "enter"%string) then count else - count.

(** The row an update expression starts from. *)
Definition row_or_new (tbl : Table) (a : string) : Item.t :=
  default (Item.key_only (area_key a).1 (area_key a).2) (stored tbl a).

Arguments row_or_new : simpl never.

(** A manager whose connection was set up, over the table [tbl]. *)
Definition with_table (tbl : Table) : database.DynamoDBManager :=
  {| database.table := Some tbl |}.

(** ** Sequences of mutations on one area *)

Inductive mutation :=
| LambdaApply (action : string) (count : Z) (now : string)
| BackendApply (action : string) (now : string)
| BackendSet (count : Z) (now : string).

Definition table_after (self : database.DynamoDBManager) (tbl : Table) : Table :=
  match database.table self with
  | Some tbl' => tbl'
  | None => tbl
  end.

(** The table once the call has come back, whatever it returned or raised. *)
Definition run_mutation (a : string) (m : mutation) (tbl : Table) : Table :=
  match m with
  | LambdaApply action count now =>
      (capacity_updater.update_capacity a action count now tbl).1
  | BackendApply action now =>
      table_after (database.update_capacity (with_table tbl) a action now).1 tbl
  | BackendSet count now =>
      table_after (database.set_capacity (with_table tbl) a count now).1 tbl
  end.

(** The tables seen after each call of the sequence, in order. *)
Fixpoint trace (a : string) (ms : list mutation) (tbl : Table) : list Table :=
  match ms with
  | [] => []
  | m :: ms' =>
      let tbl' := run_mutation a m tbl in
      tbl' :: trace a ms' tbl'
  end.

(** The invariant of the data model: a count is stored and is not negative. *)
Definition count_nonneg (tbl : Table) (a : string) : Prop :=
  exists n, stored_count tbl a = Some n /\ 0 <= n.

(** The Lambda called once per event, in order; the answers are kept. *)
Fixpoint apply_all (a : string) (events : list (string * Z * string))
    (tbl : Table) : Table * list (result Item.t) :=
  match events with
  | [] => (tbl, [])
  | (action, count, now) :: events' =>
      let '(tbl1, r) := capacity_updater.update_capacity a action count now tbl in
      let '(tbl2, rs) := apply_all a events' tbl1 in
      (tbl2, r :: rs)
  end.


(** ** Sample data *)

Definition sample_row (a nm : string) (count cap : Z) : Item.t :=
  Item.make (area_key a).1 (area_key a).2 (Some a) (Some nm) (Some count)
    (Some cap) (Some true) (Some "2024-02-07T14:30:00"%string)
    (Some "2024-01-01T00:00:00"%string) None.

(** A table with the weight room at [count] of 100 and the pool at 12 of 40. *)
Definition sample_table (count : Z) : Table :=
  dynamodb.put_item (sample_row "weight-room" "Weight Room" count 100)
    (dynamodb.put_item (sample_row "pool" "Swimming Pool" 12 40) ∅).

Definition later : string := "2024-02-07T15:00:00".

(** ** Further observations *)

(** The attributes that no counter update names: the key and the registry
    entries of the row. *)
Definition same_metadata (r r' : Item.t) : Prop :=
  Item.PK r' = Item.PK r /\ Item.SK r' = Item.SK r /\
  Item.area_id r' = Item.area_id r /\ Item.name r' = Item.name r /\
  Item.max_capacity r' = Item.max_capacity r /\
  Item.is_open r' = Item.is_open r /\
  Item.created_at r' = Item.created_at r.

(** Every row carries its own key in its PK and SK attributes. *)
Definition keyed (tbl : Table) : Prop :=
  forall key row, tbl !! key = Some row -> (Item.PK row, Item.SK row) = key.

(** The constraints of the [AreaCapacity] model. *)
Definition valid_area (area : AreaCapacity.t) : Prop :=
  0 <= AreaCapacity.current_count area /\ 0 < AreaCapacity.max_capacity area.

(** The conversion of one row inside [get_all_areas]: a row that raises is
    dropped. *)
Definition convert (now : string) (item : Item.t) : option AreaCapacity.t :=
  match database.to_area item now with
  | inr area => Some area
  | inl _ => None
  end.

(** What [get_all_areas] answers on a connected table. *)
Definition listing (tbl : Table) (now : string) : list AreaCapacity.t :=
  omap (convert now)
    (dynamodb.scan (fun i => bool_decide (Item.SK i = "METADATA"%string)) tbl).

(** What one row contributes to the listing. *)
Definition listing_row (now : string) (row : Item.t) : list AreaCapacity.t :=
  if decide (Item.SK row = "METADATA"%string)
  then option_list (convert now row) else [].

(** Some invocation on area [a] has been answered a negative count and has
    its corrective write still to come. *)
Definition floor_pending (a : string) (cs : list concurrent.call) : Prop :=
  exists i item k,
    cs !! i = Some (concurrent.Added a item) /\
    Item.current_count item = Some k /\ k < 0.

(** The calls a run of entries over area [a] can hold: an entry not yet
    issued, an answer that is not negative, or a finished call. *)
Definition entry_call (a : string) (c : concurrent.call) : Prop :=
  match c with
  | concurrent.Start a' action n _ => a' = a /\ action = "enter"%string /\ 0 <= n
  | concurrent.Added a' item =>
      a' = a /\ exists k, Item.current_count item = Some k /\ 0 <= k
  | concurrent.Done _ => True
  end.

(** The people of the entries that have not issued their add yet. *)
Definition to_add (cs : list concurrent.call) : Z :=
  foldr (fun c acc =>
           match c with
           | concurrent.Start _ _ n _ => n + acc
           | _ => acc
           end) 0 cs.

(** ** json *)

Module json.
(** The values that the handler's response bodies hold.  A number that
    comes back from the table is a [decimal.Decimal]: the boto3 resource
    deserialises every DynamoDB number to one.  [Text] is a [str] built
    from a message or from [str(e)]. *)
Inductive value :=
| Str (s : string)
| Text (d : main.detail)
| Int (n : Z)
| Bool (b : bool)
| Null
| Decimal (n : Z).

Definition object : Type := list (string * value).

(** The default encoder knows [str], [int], [bool] and [None]; for a
    [Decimal] it raises [TypeError]. *)
Definition encodable (v : value) : bool :=
  match v with
  | Decimal _ => false
  | _ => true
  end.

(** [json.dumps(obj)]; the text it returns is kept as the object. *)
Definition dumps (obj : object) : result object :=
  if forallb (fun entry => encodable entry.2) obj then ret obj
  else raise (Exception "Object of type Decimal is not JSON serializable").
End json.

(** ** capacity_updater.py: the handler *)

Module handler.
(** The event body once it is a dict ([json.loads] of a string body, or the
    dict itself), with the entries of [models.LambdaEvent] that the handler
    reads; an entry that is missing is [None].  Decoding, and entries of
    other types than the model's, are outside. *)
Record Body := {
  area_id : option string;
  action : option string;
  count : option Z;
  timestamp : option string
}.

(** [body] is the object whose JSON text the response carries. *)
Record Response := { statusCode : Z; body : json.object }.

(** The body of an error response holds a [bool] and two [str], which
    [json.dumps] always encodes. *)
Definition create_error_response (status_code : Z) (message : main.detail)
    (now : string) : Response :=
  {| statusCode := status_code;
     body := [("success"%string, json.Bool false);
              ("error"%string, json.Text message);
              ("timestamp"%string, json.Str now)] |}.

(** [result] is the row of the response's 'Attributes', so
    [result['current_count']] is a [Decimal]; an exception of [json.dumps]
    is caught by the handler's own [except Exception], after the write. *)
Definition lambda_handler (event : Body) (now : string) (table : Table)
    : Table * Response :=
  let action := lower (default "enter"%string (action event)) in
  let count := default 1 (count event) in
  let client_timestamp := timestamp event in
  match area_id event with
  | None =>
      (table, create_error_response 400
                (main.Message "Missing required parameter: area_id") now)
  | Some area_id =>
      if decide (area_id = ""%string) then
        (table, create_error_response 400
                  (main.Message "Missing required parameter: area_id") now)
      else if decide (action = "enter"%string \/ action = "exit"%string) then
        if (count <? 1) || (10 <? count) then
          (table, create_error_response 400
                    (main.Message "Count must be an integer between 1 and 10") now)
        else
          match capacity_updater.update_capacity area_id action count now table with
          | (table', inl e) =>
              (table', create_error_response 500
                         (main.Failed "Internal server error: " e) now)
          | (table', inr result) =>
              match
                let* new_count := getitem "current_count" (Item.current_count result) in
                json.dumps
                  [("success"%string, json.Bool true);
                   ("area_id"%string, json.Str area_id);
                   ("action"%string, json.Str action);
                   ("count"%string, json.Int count);
                   ("new_count"%string, json.Decimal new_count);
                   ("timestamp"%string, json.Str now);
                   ("client_timestamp"%string,
                    match client_timestamp with
                    | Some t => json.Str t
                    | None => json.Null
                    end)]
              with
              | inl e =>
                  (table', create_error_response 500
                             (main.Failed "Internal server error: " e) now)
              | inr body => (table', {| statusCode := 200; body := body |})
              end
          end
      else
        (table, create_error_response 400
                  (main.Message "Action must be 'enter' or 'exit'") now)
  end.

(** [get_current_capacity]: the row, or the empty dict. *)
Definition get_current_capacity (area_id : string) (table : Table)
    : option Item.t :=
  dynamodb.get_item (area_key area_id) table.
End handler.

(** The body with its defaults filled in and its action lowered. *)
Definition normalised (event : handler.Body) : handler.Body :=
  {| handler.area_id := handler.area_id event;
     handler.action := Some (lower (default "enter"%string (handler.action event)));
     handler.count := Some (default 1 (handler.count event));
     handler.timestamp := handler.timestamp event |}.

(** What the handler checks before it writes. *)
Definition acceptable (event : handler.Body) : Prop :=
  (exists area_id, handler.area_id event = Some area_id /\ area_id <> ""%string) /\
  (lower (default "enter"%string (handler.action event)) = "enter"%string \/
   lower (default "enter"%string (handler.action event)) = "exit"%string) /\
  1 <= default 1 (handler.count event) <= 10.

(** ** init_database.py *)

Module init_database.
Record AreaConfig := {
  area_id : string;
  name : string;
  max_capacity : Z
}.

Definition INITIAL_AREAS : list AreaConfig :=
  [ {| area_id := "weight-room"; name := "Weight Room"; max_capacity := 100 |};
    {| area_id := "cardio"; name := "Cardio Area"; max_capacity := 60 |};
    {| area_id := "track"; name := "Indoor Track"; max_capacity := 50 |};
    {| area_id := "pool"; name := "Swimming Pool"; max_capacity := 40 |};
    {| area_id := "basketball"; name := "Basketball Courts"; max_capacity := 30 |};
    {| area_id := "racquetball"; name := "Racquetball Courts"; max_capacity := 20 |};
    {| area_id := "climbing"; name := "Climbing Wall"; max_capacity := 15 |};
    {| area_id := "group-fitness"; name := "Group Fitness Studio"; max_capacity := 40 |} ].

(** [SET max_capacity = :max_cap, #name = :name] *)
Definition set_capacity_name (max_cap : Z) (name : string) (i : Item.t) : Item.t :=
  Item.make (Item.PK i) (Item.SK i) (Item.area_id i) (Some name)
    (Item.current_count i) (Some max_cap) (Item.is_open i) (Item.last_updated i)
    (Item.created_at i) (Item.update_count i).

(** How a request can end without an answer: with botocore's
    [ClientError], when the service answers an error; or with any other
    exception, when there is no answer at all.  Nothing is written in
    either case. *)
Inductive fault :=
| ClientError (msg : string)
| OtherError (e : exn).

Definition exn_of (f : fault) : exn :=
  match f with
  | ClientError msg => Exception msg
  | OtherError e => e
  end.

(** What the three requests of one turn of the loop run into, if they
    are issued; [None] is a request that answers. *)
Record Faults := {
  get_item_fault : option fault;
  update_item_fault : option fault;
  put_item_fault : option fault
}.

Definition no_faults : Faults :=
  {| get_item_fault := None; update_item_fault := None; put_item_fault := None |}.

(** The table and the two counters of the loop of [seed_areas]. *)
Record Seeding := {
  table : Table;
  created_count : nat;
  updated_count : nat
}.

(** "Create new area": the row is put with count 0.  An exception of
    [put_item] is not caught. *)
Definition create_new_area (timestamp : string) (faults : Faults) (st : Seeding)
    (area_config : AreaConfig) : result Seeding :=
  let area_id := area_id area_config in
  let key := area_key area_id in
  let item :=
    Item.make key.1 key.2 (Some area_id) (Some (name area_config)) (Some 0)
      (Some (max_capacity area_config)) (Some true) (Some timestamp)
      (Some timestamp) None in
  match put_item_fault faults with
  | Some f => raise (exn_of f)
  | None =>
      ret {| table := dynamodb.put_item item (table st);
             created_count := S (created_count st);
             updated_count := updated_count st |}
  end.

(** One turn of the loop.  A row that exists keeps its count and gets the
    configured capacity and name ([continue]).  [except ClientError: pass]
    leads from a [get_item] or an [update_item] that raised [ClientError]
    to "Create new area", as a missing row does; any other exception
    leaves [seed_areas]. *)
Definition seed_area (timestamp : string) (faults : Faults) (st : Seeding)
    (area_config : AreaConfig) : result Seeding :=
  let key := area_key (area_id area_config) in
  match get_item_fault faults with
  | Some (ClientError _) => create_new_area timestamp faults st area_config
  | Some (OtherError e) => raise e
  | None =>
      match dynamodb.get_item key (table st) with
      | Some _ =>
          match update_item_fault faults with
          | Some (ClientError _) => create_new_area timestamp faults st area_config
          | Some (OtherError e) => raise e
          | None =>
              ret {| table :=
                       (dynamodb.update_item key
                          (set_capacity_name (max_capacity area_config)
                             (name area_config))
                          (table st)).1;
                     created_count := created_count st;
                     updated_count := S (updated_count st) |}
          end
      | None => create_new_area timestamp faults st area_config
      end
  end.

(** The loop; [faults] tells what the requests for each area run into.
    The state is the one reached when the loop ends or is left. *)
Fixpoint seed_list (timestamp : string) (faults : string -> Faults)
    (areas : list AreaConfig) (st : Seeding) : Seeding * result unit :=
  match areas with
  | [] => (st, ret tt)
  | area_config :: areas' =>
      match seed_area timestamp (faults (area_id area_config)) st area_config with
      | inl e => (st, raise e)
      | inr st' => seed_list timestamp faults areas' st'
      end
  end.

(** [timestamp = datetime.utcnow().isoformat() + "Z"] *)
Definition seed_areas (faults : string -> Faults) (now : string) (table : Table)
    : Seeding * result unit :=
  seed_list (now +:+ "Z") faults INITIAL_AREAS
    {| table := table; created_count := 0; updated_count := 0 |}.

(** One line of the report: [item['name']], [item['current_count']] and
    [item['max_capacity']] are read, in this order. *)
Definition print_area (item : Item.t) : result unit :=
  let* _ := getitem "name" (Item.name item) in
  let* _ := getitem "current_count" (Item.current_count item) in
  let* _ := getitem "max_capacity" (Item.max_capacity item) in
  ret tt.

Fixpoint print_areas (items : list Item.t) : result unit :=
  match items with
  | [] => ret tt
  | item :: items' =>
      let* _ := print_area item in
      print_areas items'
  end.

(** The rows of the scan are printed, then counted against the seeds. *)
Definition verify_setup (table : Table) : result bool :=
  let items :=
    dynamodb.scan (fun i => bool_decide (Item.SK i = "METADATA"%string)) table in
  let* _ := print_areas items in
  ret (length INITIAL_AREAS <=? length items)%nat.
End init_database.

(** The row that "Create new area" puts. *)
Definition new_row (timestamp : string) (cfg : init_database.AreaConfig) : Item.t :=
  let a := init_database.area_id cfg in
  Item.make (area_key a).1 (area_key a).2 (Some a)
    (Some (init_database.name cfg)) (Some 0)
    (Some (init_database.max_capacity cfg)) (Some true) (Some timestamp)
    (Some timestamp) None.

(** A [ClientError] of [get_item], or of the [update_item] that follows a
    [get_item] which answered: the exception that [seed_areas] passes over. *)
Definition swallowed (faults : init_database.Faults) : bool :=
  match init_database.get_item_fault faults with
  | Some (init_database.ClientError _) => true
  | Some (init_database.OtherError _) => false
  | None =>
      match init_database.update_item_fault faults with
      | Some (init_database.ClientError _) => true
      | _ => false
      end
  end.

(** The row under an area's key after a turn of the seeding loop that
    was not left by an exception. *)
Definition seeded_row (timestamp : string) (cfg : init_database.AreaConfig)
    (faults : init_database.Faults) (tbl : Table) : Item.t :=
  match stored tbl (init_database.area_id cfg) with
  | Some row =>
      if swallowed faults then new_row timestamp cfg
      else
        init_database.set_capacity_name (init_database.max_capacity cfg)
          (init_database.name cfg) row
  | None => new_row timestamp cfg
  end.

(** A row agrees with a configured area: it has its name and capacity. *)
Definition configured (cfg : init_database.AreaConfig) (row : Item.t) : Prop :=
  Item.name row = Some (init_database.name cfg) /\
  Item.max_capacity row = Some (init_database.max_capacity cfg).

(** The attributes that a line of the report reads. *)
Definition printable (row : Item.t) : Prop :=
  is_Some (Item.name row) /\ is_Some (Item.current_count row) /\
  is_Some (Item.max_capacity row).

(** Every row that the scan of [verify_setup] finds can be printed. *)
Definition all_printable (tbl : Table) : Prop :=
  forall key row,
    tbl !! key = Some row -> Item.SK row = "METADATA"%string -> printable row.

(** No request of the turn raises what [seed_areas] does not catch:
    [put_item] answers, and [get_item] and [update_item] answer or raise
    [ClientError]. *)
Definition caught (faults : init_database.Faults) : Prop :=
  init_database.put_item_fault faults = None /\
  (forall e, init_database.get_item_fault faults <>
               Some (init_database.OtherError e)) /\
  (forall e, init_database.update_item_fault faults <>
               Some (init_database.OtherError e)).

(** A run in which every request answers. *)
Definition all_answer : string -> init_database.Faults :=
  fun _ => init_database.no_faults.

(** The requests for the weight room run into a [ClientError] of
    [get_item]; all others answer. *)
Definition weight_room_get_fails : string -> init_database.Faults :=
  fun a =>
    if decide (a = "weight-room"%string) then
      {| init_database.get_item_fault := Some (init_database.ClientError "throttled");
         init_database.update_item_fault := None;
         init_database.put_item_fault := None |}
    else init_database.no_faults.

(** The row that the Lambda leaves for an area nobody registered. *)
Definition sauna_row : Item.t :=
  Item.make "AREA#sauna" "METADATA" None None (Some 1) None None (Some later) None
    (Some 1).

(** * Properties *)

(** ** Keys and single requests *)

Lemma area_key_inj (a b : string) : area_key a = area_key b -> a = b.
Proof. unfold area_key. intros H. by simplify_eq/=. Qed.

Lemma area_key_ne (a b : string) : a <> b -> area_key a <> area_key b.
Proof. intros Hne Heq. by apply Hne, area_key_inj. Qed.

Lemma stored_update_item_eq (tbl : Table) (a : string) upd :
  stored (dynamodb.update_item (area_key a) upd tbl).1 a =
  Some (upd (default (Item.key_only (area_key a).1 (area_key a).2)
                     (stored tbl a))).
Proof. unfold stored, dynamodb.update_item. cbn. by rewrite lookup_insert_eq. Qed.

Lemma stored_update_item_ne (tbl : Table) (a b : string) upd :
  a <> b ->
  stored (dynamodb.update_item (area_key a) upd tbl).1 b = stored tbl b.
Proof.
  intros Hne. unfold stored, dynamodb.update_item. cbn.
  rewrite lookup_insert_ne; [done | by apply area_key_ne].
Qed.

Lemma update_item_attributes (tbl : Table) (a : string) upd :
  dynamodb.Attributes (dynamodb.update_item (area_key a) upd tbl).2 =
  stored (dynamodb.update_item (area_key a) upd tbl).1 a.
Proof. by rewrite stored_update_item_eq. Qed.

(** ** The Lambda's [update_capacity], one call *)

Lemma lambda_update_capacity_spec (tbl : Table) (a action now : string) (n : Z) :
  exists tbl' item,
    capacity_updater.update_capacity a action n now tbl = (tbl', inr item) /\
    stored tbl' a = Some item /\
    Item.current_count item =
      Some (Z.max 0 (count_or_zero tbl a + increment_of action n)) /\
    Item.update_count item =
      Some (default 0 (stored_update_count tbl a) + 1) /\
    (forall b, a <> b -> stored tbl' b = stored tbl b).
Proof.
  unfold capacity_updater.update_capacity, capacity_updater.update_capacity_add,
    capacity_updater.update_capacity_floor, count_or_zero, stored_count,
    stored_update_count, increment_of.
  set (inc := if decide (action = "enter"%string) then n else - n).
  set (upd := fun i => dynamodb.add_update_count 1 (dynamodb.add_count inc now i)).
  pose proof (stored_update_item_eq tbl a upd) as Heq.
  pose proof (fun b => stored_update_item_ne tbl a b upd) as Hne.
  destruct (dynamodb.update_item (area_key a) upd tbl) as [tbl1 resp] eqn:Hupd.
  assert (dynamodb.Attributes resp = stored tbl1 a) as Hattr.
  { pose proof (update_item_attributes tbl a upd) as H. by rewrite Hupd in H. }
  cbn [fst snd] in *. rewrite Hattr, Heq. cbn [getitem ret].
  set (old := default _ (stored tbl a)) in *.
  assert (default 0 (Item.current_count old) = default 0 (stored tbl a ≫= Item.current_count)
          /\ default 0 (Item.update_count old) = default 0 (stored tbl a ≫= Item.update_count))
    as [Hc Hu].
  { subst old. by destruct (stored tbl a). }
  cbn [upd dynamodb.add_update_count dynamodb.add_count Item.set_update_count
       Item.set_last_updated Item.set_current_count Item.current_count
       Item.update_count getitem ret].
  rewrite Hc.
  set (c := default 0 (stored tbl a ≫= Item.current_count) + inc).
  destruct (Z.ltb_spec c 0) as [Hneg | Hpos].
  - pose proof (stored_update_item_eq tbl1 a (dynamodb.set_count 0)) as Heq2.
    pose proof (fun b => stored_update_item_ne tbl1 a b (dynamodb.set_count 0)) as Hne2.
    pose proof (update_item_attributes tbl1 a (dynamodb.set_count 0)) as Hattr2.
    destruct (dynamodb.update_item (area_key a) (dynamodb.set_count 0) tbl1)
      as [tbl2 resp2] eqn:Hupd2.
    cbn [fst snd] in *. rewrite Hattr2, Heq2, Heq. cbn [default getitem ret].
    eexists _, _. split; [reflexivity |].
    split; [by rewrite Heq2, Heq |].
    split; [| split].
    + cbn. f_equal. lia.
    + cbn. do 2 f_equal. exact Hu.
    + intros b Hb. by rewrite Hne2, Hne.
  - eexists _, _. split; [reflexivity |]. split; [exact Heq |].
    split; [| split].
    + transitivity (Some c); [cbn; do 2 f_equal; exact Hc | f_equal; lia].
    + cbn. do 2 f_equal. exact Hu.
    + intros b Hb. by apply Hne.
Qed.

(** ** The manager's writes, unfolded *)

Lemma count_row_or_new (tbl : Table) (a : string) :
  default 0 (Item.current_count (row_or_new tbl a)) = count_or_zero tbl a.
Proof.
  unfold row_or_new, count_or_zero, stored_count. by destruct (stored tbl a).
Qed.

Lemma update_count_row_or_new (tbl : Table) (a : string) :
  Item.update_count (row_or_new tbl a) = stored_update_count tbl a.
Proof.
  unfold row_or_new, stored_update_count. by destruct (stored tbl a).
Qed.

Lemma set_capacity_eq (tbl : Table) (a now : string) (v : Z) :
  let new := dynamodb.set_count_stamp (Z.max 0 v) now (row_or_new tbl a) in
  database.set_capacity (with_table tbl) a v now =
  (with_table (<[area_key a := new]> tbl),
   let* area := database.to_area new now in ret (Some area)).
Proof. reflexivity. Qed.

Lemma update_capacity_eq (tbl : Table) (a action now : string) :
  let inc := if decide (action = "enter"%string) then 1 else -1 in
  let item := dynamodb.add_count inc now (row_or_new tbl a) in
  let tbl1 := <[area_key a := item]> tbl in
  database.update_capacity (with_table tbl) a action now =
  if count_or_zero tbl a + inc <? 0 then
    ((database.set_capacity (with_table tbl1) a 0 now).1,
     let* _ := (database.set_capacity (with_table tbl1) a 0 now).2 in
     let* area := database.to_area (Item.set_current_count 0 item) now in
     ret (Some area))
  else
    (with_table tbl1, let* area := database.to_area item now in ret (Some area)).
Proof.
  intros inc item tbl1. rewrite <- count_row_or_new.
  unfold database.update_capacity, with_table. cbn -[Z.ltb].
  fold inc. by destruct (_ <? 0).
Qed.

Lemma stored_insert_eq (tbl : Table) (a : string) (i : Item.t) :
  stored (<[area_key a := i]> tbl) a = Some i.
Proof. unfold stored. by rewrite lookup_insert_eq. Qed.

Lemma stored_insert_ne (tbl : Table) (a b : string) (i : Item.t) :
  a <> b -> stored (<[area_key a := i]> tbl) b = stored tbl b.
Proof.
  intros Hne. unfold stored. rewrite lookup_insert_ne; [done | by apply area_key_ne].
Qed.

(** What [set_capacity] leaves in the table, whatever it returns. *)
Lemma set_capacity_store (tbl : Table) (a now : string) (v : Z) :
  exists tbl' r,
    database.set_capacity (with_table tbl) a v now = (with_table tbl', r) /\
    stored_count tbl' a = Some (Z.max 0 v) /\
    stored_update_count tbl' a = stored_update_count tbl a /\
    (forall b, a <> b -> stored tbl' b = stored tbl b).
Proof.
  rewrite set_capacity_eq. eexists _, _. split; [reflexivity |].
  unfold stored_count, stored_update_count at 1.
  rewrite stored_insert_eq. cbn. rewrite update_count_row_or_new.
  repeat split. intros b Hb. by apply stored_insert_ne.
Qed.

(** What the backend's [update_capacity] leaves in the table. *)
Lemma update_capacity_store (tbl : Table) (a action now : string) :
  exists tbl' r,
    database.update_capacity (with_table tbl) a action now = (with_table tbl', r) /\
    stored_count tbl' a = Some (Z.max 0 (count_or_zero tbl a + increment_of action 1)) /\
    stored_update_count tbl' a = stored_update_count tbl a /\
    (forall b, a <> b -> stored tbl' b = stored tbl b).
Proof.
  rewrite update_capacity_eq. unfold increment_of.
  set (inc := if decide (action = "enter"%string) then 1 else - (1)).
  change (-1) with (- (1)). fold inc.
  set (item := dynamodb.add_count inc now (row_or_new tbl a)).
  destruct (Z.ltb_spec (count_or_zero tbl a + inc) 0) as [Hneg | Hpos].
  - destruct (set_capacity_store (<[area_key a := item]> tbl) a now 0)
      as (tbl' & r & Hset & Hc & Hu & Ho).
    rewrite Hset. cbn [fst snd]. eexists _, _. split; [reflexivity |].
    split; [| split].
    + rewrite Hc. f_equal. lia.
    + rewrite Hu. unfold stored_update_count. rewrite stored_insert_eq.
      cbn. apply update_count_row_or_new.
    + intros b Hb. rewrite (Ho b Hb). by apply stored_insert_ne.
  - eexists _, _. split; [reflexivity |]. split; [| split].
    + unfold stored_count. rewrite stored_insert_eq. cbn.
      rewrite count_row_or_new. f_equal. lia.
    + unfold stored_update_count at 1. rewrite stored_insert_eq.
      cbn. apply update_count_row_or_new.
    + intros b Hb. by apply stored_insert_ne.
Qed.

(** ** Clamp at zero *)

(** *** The serializer in front of the writers *)

Lemma serialize_n_in_range (v : Z) : in_range v -> boto3.serialize_n v = ret v.
Proof.
  unfold in_range, boto3.serialize_n. intros Hv.
  destruct (Z.ltb_spec (Z.abs v) boto3.limit); [done | lia].
Qed.

Lemma serialize_n_refused (v : Z) :
  boto3.limit <= Z.abs v -> boto3.serialize_n v = raise boto3.DecimalException.
Proof.
  unfold boto3.serialize_n. intros Hv.
  destruct (Z.ltb_spec (Z.abs v) boto3.limit); [lia | done].
Qed.

Lemma in_range_increment (action : string) (n : Z) :
  Z.abs (increment_of action n) = Z.abs n.
Proof. unfold increment_of. destruct (decide _); lia. Qed.

(** On a count the serializer takes, the Lambda's call is the one of
    [capacity_updater]. *)
Lemma sdk_update_capacity_in_range (tbl : Table) (a action now : string) (n : Z) :
  in_range n ->
  sdk.capacity_updater.update_capacity a action n now tbl =
  capacity_updater.update_capacity a action n now tbl.
Proof.
  intros Hn.
  assert (in_range (increment_of action n)) as Hinc
    by (unfold in_range; by rewrite in_range_increment).
  unfold sdk.capacity_updater.update_capacity, capacity_updater.update_capacity,
    sdk.capacity_updater.update_capacity_add, capacity_updater.update_capacity_add,
    sdk.capacity_updater.update_capacity_floor,
    capacity_updater.update_capacity_floor, boto3.update_item.
  fold (increment_of action n). cbn [boto3.serialize].
  rewrite (serialize_n_in_range _ Hinc).
  change (boto3.serialize_n 0) with (ret (A := Z) 0).
  change (boto3.serialize_n 1) with (ret (A := Z) 1).
  unfold bind, ret, raise.
  destruct (dynamodb.update_item _ _ tbl) as [tbl1 resp].
  destruct (getitem "Attributes" (dynamodb.Attributes resp)) as [e | item]; [done |].
  destruct (getitem "current_count" (Item.current_count item)) as [e | c]; [done |].
  destruct (c <? 0); [| done].
  by destruct (dynamodb.update_item _ _ tbl1).
Qed.

(** A count of 39 digits or more never leaves the process. *)
Lemma sdk_update_capacity_refused (tbl : Table) (a action now : string) (n : Z) :
  boto3.limit <= Z.abs n ->
  sdk.capacity_updater.update_capacity a action n now tbl =
  (tbl, raise boto3.DecimalException).
Proof.
  intros Hn.
  unfold sdk.capacity_updater.update_capacity,
    sdk.capacity_updater.update_capacity_add, boto3.update_item.
  fold (increment_of action n). cbn [boto3.serialize].
  rewrite serialize_n_refused by (by rewrite in_range_increment). done.
Qed.

Lemma sdk_set_capacity_in_range (tbl : Table) (a now : string) (v : Z) :
  v < boto3.limit ->
  sdk.database.set_capacity (with_table tbl) a v now =
  database.set_capacity (with_table tbl) a v now.
Proof.
  intros Hv.
  unfold sdk.database.set_capacity, database.set_capacity, boto3.update_item,
    with_table.
  cbn [database.table boto3.serialize].
  rewrite serialize_n_in_range by (unfold in_range, boto3.limit in *; lia).
  cbn [bind ret].
  by destruct (dynamodb.update_item _ _ tbl).
Qed.

Lemma sdk_set_capacity_refused (tbl : Table) (a now : string) (v : Z) :
  boto3.limit <= v ->
  sdk.database.set_capacity (with_table tbl) a v now =
  (with_table tbl, raise boto3.DecimalException).
Proof.
  intros Hv.
  unfold sdk.database.set_capacity, boto3.update_item, with_table.
  cbn [database.table boto3.serialize].
  rewrite serialize_n_refused by (unfold boto3.limit in *; lia). done.
Qed.

(** The backend's apply sends 1, -1 and 0 only: the serializer takes them
    all, and the call is the one of [database]. *)
Lemma sdk_backend_update_capacity (tbl : Table) (a action now : string) :
  sdk.database.update_capacity (with_table tbl) a action now =
  database.update_capacity (with_table tbl) a action now.
Proof.
  unfold sdk.database.update_capacity, database.update_capacity, boto3.update_item,
    with_table.
  cbn [database.table].
  set (inc := if decide (action = "enter"%string) then 1 else -1).
  assert (boto3.serialize [inc; 0] = inr [inc; 0]) as ->
    by (unfold inc; by destruct (decide _)).
  unfold ret, raise, bind.
  destruct (dynamodb.update_item _ _ tbl) as [tbl1 resp].
  destruct (dynamodb.Attributes resp) as [item |]; [| done].
  destruct (getitem "current_count" (Item.current_count item)) as [e | c]; [done |].
  destruct (c <? 0); [| done].
  change {| database.table := Some tbl1 |} with (with_table tbl1).
  by rewrite sdk_set_capacity_in_range by (vm_compute; reflexivity).
Qed.

(** C1. One apply leaves [max(0, previous + delta)] in the table whenever
    the previous count, the delta and their sum have at most 38 digits:
    through the Lambda for any such count, and through the backend for its
    unit steps, whose numbers (1, -1 and 0) the serializer always takes.  A
    missing count reads as 0, as [if_not_exists] has it, and the Lambda
    answers the row holding the new value.  A delta of 39 digits or more
    is refused by the serializer: the call raises and the table is as it
    was. *)
Theorem C1_apply_stores_clamped_sum (tbl : Table) (a action now : string) (n : Z) :
  let old := count_or_zero tbl a in
  (in_range old -> in_range n -> in_range (old + increment_of action n) ->
   exists tbl' item,
     sdk.capacity_updater.update_capacity a action n now tbl = (tbl', inr item) /\
     stored_count tbl' a = Some (Z.max 0 (old + increment_of action n)) /\
     Item.current_count item = Some (Z.max 0 (old + increment_of action n))) /\
  (in_range old -> in_range (old + increment_of action 1) ->
   exists tbl' r,
     sdk.database.update_capacity (with_table tbl) a action now =
       (with_table tbl', r) /\
     stored_count tbl' a = Some (Z.max 0 (old + increment_of action 1))) /\
  (boto3.limit <= Z.abs n ->
   sdk.capacity_updater.update_capacity a action n now tbl =
     (tbl, raise boto3.DecimalException)).
Proof.
  cbv zeta. split; [| split].
  - intros _ Hn _. rewrite (sdk_update_capacity_in_range tbl a action now n Hn).
    destruct (lambda_update_capacity_spec tbl a action now n)
      as (tbl' & item & Hrun & Hst & Hc & _).
    exists tbl', item. split; [done |]. split; [| done].
    unfold stored_count. rewrite Hst. exact Hc.
  - intros _ _. rewrite sdk_backend_update_capacity.
    destruct (update_capacity_store tbl a action now) as (tbl' & r & Hrun & Hc & _).
    by exists tbl', r.
  - apply sdk_update_capacity_refused.
Qed.

(** From count 3, an exit of 10 leaves 0 and not -7. *)
Lemma C1_exit_ten_from_three :
  count_or_zero (sample_table 3) "weight-room" = 3 /\
  stored_count
    (sdk.capacity_updater.update_capacity "weight-room" "exit" 10 later
       (sample_table 3)).1
    "weight-room" = Some 0.
Proof.
  split; [reflexivity |].
  destruct (C1_apply_stores_clamped_sum (sample_table 3) "weight-room" "exit" later 10)
    as [Hlambda _].
  destruct Hlambda as (tbl' & item & Hrun & Hc & _);
    [unfold in_range; vm_compute; reflexivity .. |].
  rewrite Hrun. exact Hc.
Defined.

(** An entry of 10^38 people is not stored: the count stays 3, which is
    not [max(0, 3 + 10^38)]. *)
Lemma C1_entry_of_39_digits_is_not_stored :
  let call :=
    sdk.capacity_updater.update_capacity "weight-room" "enter" (10 ^ 38) later
      (sample_table 3) in
  call.2 = raise boto3.DecimalException /\
  stored_count call.1 "weight-room" = Some 3 /\
  Some 3 <> Some (Z.max 0 (count_or_zero (sample_table 3) "weight-room" +
                           increment_of "enter" (10 ^ 38))).
Proof.
  cbv zeta.
  rewrite (sdk_update_capacity_refused (sample_table 3) "weight-room" "enter" later
             (10 ^ 38)) by (vm_compute; discriminate).
  split; [reflexivity |]. split; [reflexivity |]. vm_compute. discriminate.
Qed.

(** ** Non-negativity over sequences *)

Lemma run_mutation_nonneg (a : string) (m : mutation) (tbl : Table) :
  count_nonneg (run_mutation a m tbl) a.
Proof.
  destruct m as [action n now | action now | v now]; cbn [run_mutation].
  - destruct (lambda_update_capacity_spec tbl a action now n)
      as (tbl' & item & Hrun & Hst & Hc & _).
    rewrite Hrun. cbn [fst]. eexists. split.
    + unfold stored_count. rewrite Hst. exact Hc.
    + lia.
  - destruct (update_capacity_store tbl a action now) as (tbl' & r & Hrun & Hc & _).
    rewrite Hrun. cbn. eexists. split; [exact Hc | lia].
  - destruct (set_capacity_store tbl a now v) as (tbl' & r & Hrun & Hc & _).
    rewrite Hrun. cbn. eexists. split; [exact Hc | lia].
Qed.

Lemma trace_nonneg (a : string) (ms : list mutation) (tbl : Table) :
  Forall (fun tbl' => count_nonneg tbl' a) (trace a ms tbl).
Proof.
  revert tbl. induction ms as [| m ms IH]; intros tbl; cbn [trace].
  - constructor.
  - constructor; [apply run_mutation_nonneg | apply IH].
Qed.

(** C2. Between the calls of any sequence of applies and sets on one area
    the stored count is never negative: it is so at the start by
    assumption and after each call that has come back, whatever the
    deltas and their order. *)
Theorem C2_count_never_negative (a : string) (ms : list mutation) (tbl : Table) :
  count_nonneg tbl a ->
  Forall (fun tbl' => count_nonneg tbl' a) (tbl :: trace a ms tbl).
Proof.
  intros Hstart. constructor; [exact Hstart | apply trace_nonneg].
Qed.

(** Two exits of 10 from 3, a unit exit, a set to -4 and an entry. *)
Lemma C2_sample_sequence :
  Forall (fun tbl' => count_nonneg tbl' "weight-room")
    (sample_table 3 ::
     trace "weight-room"
       [LambdaApply "exit" 10 later; LambdaApply "exit" 10 later;
        BackendApply "exit" later; BackendSet (-4) later;
        LambdaApply "enter" 2 later]
       (sample_table 3)).
Proof.
  apply C2_count_never_negative. exists 3. split; [reflexivity | lia].
Defined.

(** ** Unknown areas *)

(** A read of an area without a row answers "not found"; reads have no
    table to give back, they cannot write. *)
Lemma get_area_unknown (tbl : Table) (a now : string) :
  stored tbl a = None ->
  database.get_area (with_table tbl) a now = inr None /\
  main.get_area_capacity a (with_table tbl) now = inl (main.not_found a).
Proof.
  intros Hnone. unfold stored in Hnone.
  unfold main.get_area_capacity, database.get_area, with_table, dynamodb.get_item.
  cbn [database.table]. by rewrite Hnone.
Qed.

(** An apply through the backend on an area without a row creates the row
    with the counter alone, then fails to convert it: the caller gets the
    [KeyError], never [None]. *)
Lemma backend_apply_unknown (tbl : Table) (a action now : string) :
  stored tbl a = None ->
  exists tbl' item,
    database.update_capacity (with_table tbl) a action now =
      (with_table tbl', inl (KeyError "area_id")) /\
    stored tbl' a = Some item /\
    Item.area_id item = None /\
    Item.current_count item = Some (Z.max 0 (increment_of action 1)).
Proof.
  intros Hnone. rewrite update_capacity_eq.
  assert (count_or_zero tbl a = 0) as ->.
  { unfold count_or_zero, stored_count. by rewrite Hnone. }
  assert (row_or_new tbl a = Item.key_only (area_key a).1 (area_key a).2) as ->.
  { unfold row_or_new. by rewrite Hnone. }
  unfold increment_of.
  destruct (decide (action = "enter"%string)).
  - cbn -[area_key]. eexists _, _. split; [reflexivity |].
    rewrite stored_insert_eq. done.
  - rewrite set_capacity_eq. unfold row_or_new. rewrite stored_insert_eq.
    cbn -[area_key]. eexists _, _. split; [reflexivity |].
    rewrite stored_insert_eq. done.
Qed.

(** C3, at the failing input.  "nonexistent" has no row.  POST
    /api/update for it raises 500 over a [KeyError] where the specification wants
    "not found", and the table has gained a row; the Lambda answers the new
    row as a success.  Only the read reports "not found". *)
Theorem C3_apply_on_unknown_area_creates_row :
  let tbl := sample_table 45 in
  let request := UpdateCapacityRequest.make "nonexistent" "enter" 1 None in
  let backend := main.update_capacity request (with_table tbl) later in
  let lambda := capacity_updater.update_capacity "nonexistent" "enter" 1 later tbl in
  stored tbl "nonexistent" = None /\
  backend.2 =
    inl {| main.status_code := 500;
           main.http_detail :=
             main.Failed "Failed to update capacity: " (KeyError "area_id") |} /\
  stored (table_after backend.1 tbl) "nonexistent" =
    Some (Item.make "AREA#nonexistent" "METADATA" None None (Some 1) None None
            (Some later) None None) /\
  lambda.2 =
    inr (Item.make "AREA#nonexistent" "METADATA" None None (Some 1) None None
           (Some later) None (Some 1)) /\
  stored lambda.1 "nonexistent" =
    Some (Item.make "AREA#nonexistent" "METADATA" None None (Some 1) None None
            (Some later) None (Some 1)) /\
  main.get_area_capacity "nonexistent" (with_table tbl) later =
    inl (main.not_found "nonexistent").
Proof. cbv zeta. repeat split; vm_compute; reflexivity. Qed.

(** ** The event's count *)

(** POST /api/update gives the same answer and the same table for every
    [count] of the request. *)
Lemma backend_update_ignores_count (a action : string) (c c' : Z)
    (ts : option string) (db : database.DynamoDBManager) (now : string) :
  main.update_capacity (UpdateCapacityRequest.make a action c ts) db now =
  main.update_capacity (UpdateCapacityRequest.make a action c' ts) db now.
Proof. reflexivity. Qed.

(** C4, at the failing input.  The event "3 people enter the weight room"
    is valid; with 45 inside, the backend stores and answers 46, the
    Lambda stores 48. *)
Theorem C4_backend_enter_three_adds_one :
  let tbl := sample_table 45 in
  let event := UpdateCapacityRequest.make "weight-room" "enter" 3 None in
  let backend := main.update_capacity event (with_table tbl) later in
  UpdateCapacityRequest.validate event = inr event /\
  backend.2 =
    inr {| main.upd_success := true; main.upd_area_id := "weight-room";
           main.upd_action := "enter"; main.upd_new_count := 46;
           main.upd_timestamp := later |} /\
  stored_count (table_after backend.1 tbl) "weight-room" = Some 46 /\
  stored_count
    (capacity_updater.update_capacity "weight-room" "enter" 3 later tbl).1
    "weight-room" = Some 48.
Proof. cbv zeta. repeat split; vm_compute; reflexivity. Qed.

(** ** The update counter *)

Lemma apply_all_length (a : string) (events : list (string * Z * string))
    (tbl : Table) :
  length (apply_all a events tbl).2 = length events.
Proof.
  revert tbl. induction events as [| [[action n] now] events IH]; intros tbl.
  - reflexivity.
  - cbn [apply_all].
    destruct (capacity_updater.update_capacity a action n now tbl) as [tbl1 r].
    specialize (IH tbl1). destruct (apply_all a events tbl1) as [tbl2 rs].
    cbn in *. by rewrite IH.
Qed.






(** ** Rows that convert *)

Lemma to_area_ok (item : Item.t) (now id nm : string) (c cap : Z) :
  Item.area_id item = Some id ->
  Item.name item = Some nm ->
  Item.current_count item = Some c ->
  Item.max_capacity item = Some cap ->
  0 <= c -> 0 < cap ->
  database.to_area item now =
  inr (AreaCapacity.make id nm c cap (default true (Item.is_open item))
         (default now (Item.last_updated item))).
Proof.
  intros Hid Hnm Hc Hcap Hc0 Hcap0. unfold database.to_area.
  rewrite Hid, Hnm, Hc, Hcap. cbn [getitem ret bind].
  unfold AreaCapacity.validate. cbn [AreaCapacity.current_count AreaCapacity.max_capacity].
  destruct (Z.ltb_spec c 0); [lia |]. destruct (Z.leb_spec cap 0); [lia |]. done.
Qed.

(** ** Creating an area *)




(** ** Administrative set *)

Lemma registered_after_set (tbl : Table) (a now : string) (v : Z) :
  registered tbl a ->
  exists id nm cap,
    let row := dynamodb.set_count_stamp (Z.max 0 v) now (row_or_new tbl a) in
    Item.area_id row = Some id /\ Item.name row = Some nm /\
    Item.max_capacity row = Some cap /\ 0 < cap /\
    Item.current_count row = Some (Z.max 0 v).
Proof.
  intros (item & id & nm & cap & Hst & Hid & Hnm & Hcap & Hpos).
  exists id, nm, cap. unfold row_or_new. rewrite Hst. cbn. done.
Qed.

(** The request of a set, once it is sent: it stores [max(0, value)]; on
    a registered area the call answers that count and a read that follows
    answers it too. *)
Lemma set_capacity_sent (tbl : Table) (a now : string) (v : Z) :
  exists tbl' r,
    database.set_capacity (with_table tbl) a v now = (with_table tbl', r) /\
    stored_count tbl' a = Some (Z.max 0 v) /\
    (v < 0 -> stored_count tbl' a = Some 0) /\
    (registered tbl a ->
     forall now',
     exists area area',
       r = inr (Some area) /\
       AreaCapacity.current_count area = Z.max 0 v /\
       database.get_area (with_table tbl') a now' = inr (Some area') /\
       AreaCapacity.current_count area' = Z.max 0 v).
Proof.
  destruct (set_capacity_store tbl a now v) as (tbl' & r & Hrun & Hc & _).
  exists tbl', r. split; [exact Hrun |]. split; [exact Hc |].
  split; [intros Hneg; rewrite Hc; f_equal; lia |].
  intros Hreg now'.
  destruct (registered_after_set tbl a now v Hreg)
    as (id & nm & cap & Hid & Hnm & Hcap & Hpos & Hcnt).
  rewrite set_capacity_eq in Hrun. cbv zeta in *.
  set (row := dynamodb.set_count_stamp (Z.max 0 v) now (row_or_new tbl a)) in *.
  injection Hrun as Htbl Hr. subst tbl' r.
  eexists _, _.
  rewrite (to_area_ok row now id nm (Z.max 0 v) cap) by (done || lia).
  split; [reflexivity |]. split; [reflexivity |].
  unfold database.get_area, with_table, dynamodb.get_item. cbn [database.table].
  pose proof (stored_insert_eq tbl a row) as Hst. unfold stored in Hst. rewrite Hst.
  rewrite (to_area_ok row now' id nm (Z.max 0 v) cap) by (done || lia).
  split; reflexivity.
Qed.

(** C7. A set stores [max(0, value)] for every integer value below 10^38,
    so a negative value, of any size, leaves 0; on a registered area the
    call answers that count and a read that follows answers it too.  A
    value of 10^38 or more is refused by the serializer: the call raises
    and the table is as it was. *)
Theorem C7_set_stores_clamped_value (tbl : Table) (a now : string) (v : Z) :
  (v < boto3.limit ->
   exists tbl' r,
     sdk.database.set_capacity (with_table tbl) a v now = (with_table tbl', r) /\
     stored_count tbl' a = Some (Z.max 0 v) /\
     (v < 0 -> stored_count tbl' a = Some 0) /\
     (registered tbl a ->
      forall now',
      exists area area',
        r = inr (Some area) /\
        AreaCapacity.current_count area = Z.max 0 v /\
        database.get_area (with_table tbl') a now' = inr (Some area') /\
        AreaCapacity.current_count area' = Z.max 0 v)) /\
  (boto3.limit <= v ->
   sdk.database.set_capacity (with_table tbl) a v now =
     (with_table tbl, raise boto3.DecimalException)).
Proof.
  split.
  - intros Hv. rewrite (sdk_set_capacity_in_range tbl a now v Hv).
    apply set_capacity_sent.
  - apply sdk_set_capacity_refused.
Qed.

(** A set to -5 on the weight room holding 45. *)
Lemma C7_set_minus_five :
  exists tbl' area,
    sdk.database.set_capacity (with_table (sample_table 45)) "weight-room" (-5) later =
      (with_table tbl', inr (Some area)) /\
    stored_count tbl' "weight-room" = Some 0 /\
    AreaCapacity.current_count area = 0 /\
    (exists area',
       database.get_area (with_table tbl') "weight-room" later = inr (Some area') /\
       AreaCapacity.current_count area' = 0).
Proof.
  destruct (C7_set_stores_clamped_value (sample_table 45) "weight-room" later (-5))
    as [Hset _].
  destruct Hset as (tbl' & r & Hrun & _ & Hneg & Hreg); [vm_compute; reflexivity |].
  destruct (Hreg (ex_intro _ (sample_row "weight-room" "Weight Room" 45 100)
              (ex_intro _ "weight-room"%string
                 (ex_intro _ "Weight Room"%string
                    (ex_intro _ 100
                       (conj eq_refl (conj eq_refl (conj eq_refl
                          (conj eq_refl eq_refl))))))))
              later)
    as (area & area' & Hr & Hc & Hget & Hc').
  exists tbl', area. subst r. split; [exact Hrun |].
  split; [apply Hneg; lia |]. split; [exact Hc |].
  exists area'. split; [exact Hget | exact Hc'].
Defined.

(** A set to 10^38 + 1 on the weight room holding 45 is not stored: the
    count stays 45. *)
Lemma C7_set_of_39_digits_is_not_stored :
  let call :=
    sdk.database.set_capacity (with_table (sample_table 45)) "weight-room"
      (10 ^ 38 + 1) later in
  call.2 = raise boto3.DecimalException /\
  (exists tbl', call.1 = with_table tbl' /\ stored_count tbl' "weight-room" = Some 45) /\
  Some 45 <> Some (Z.max 0 (10 ^ 38 + 1)).
Proof.
  cbv zeta.
  rewrite (sdk_set_capacity_refused (sample_table 45) "weight-room" later (10 ^ 38 + 1))
    by (vm_compute; discriminate).
  split; [reflexivity |]. split; [by exists (sample_table 45) |]. vm_compute. discriminate.
Qed.

(** ** The list of all areas *)

(** C9. When the manager's list of areas comes back empty, GET
    /api/capacity answers the six mock areas and not an empty list: they
    are [AreaCapacity] values like real ones, each with a positive count,
    the weight room first at 45 of 100. *)
Theorem C9_empty_list_served_as_mock (db : database.DynamoDBManager) (now : string) :
  database.get_all_areas db now = inr [] ->
  main.get_all_capacity db now =
    inr (CapacityResponse.make now (main.get_mock_capacity_data now)) /\
  length (main.get_mock_capacity_data now) = 6%nat /\
  Forall (fun area => 0 < AreaCapacity.current_count area /\
                      AreaCapacity.validate area = inr area)
    (main.get_mock_capacity_data now) /\
  main.get_mock_capacity_data now !! 0%nat =
    Some (AreaCapacity.make "weight-room" "Weight Room" 45 100 true now).
Proof.
  intros Hempty. unfold main.get_all_capacity. rewrite Hempty.
  split; [reflexivity |]. split; [reflexivity |]. split; [| reflexivity].
  unfold main.get_mock_capacity_data. repeat constructor.
Qed.

(** An empty table, a manager without a connection, and a table whose only
    row is the one an apply on an unknown area left behind. *)
Lemma C9_mock_on_empty_tables :
  let partial :=
    (capacity_updater.update_capacity "sauna" "enter" 1 later ∅).1 in
  stored_count partial "sauna" = Some 1 /\
  Forall (fun db =>
            main.get_all_capacity db later =
            inr (CapacityResponse.make later (main.get_mock_capacity_data later)))
    [with_table ∅; {| database.table := None |}; with_table partial].
Proof.
  cbv zeta. split; [reflexivity |].
  constructor; [| constructor; [| constructor; [| constructor]]].
  - apply (C9_empty_list_served_as_mock (with_table ∅) later). reflexivity.
  - apply (C9_empty_list_served_as_mock {| database.table := None |} later).
    reflexivity.
  - apply (C9_empty_list_served_as_mock
             (with_table (capacity_updater.update_capacity "sauna" "enter" 1 later ∅).1)
             later).
    vm_compute. reflexivity.
Defined.

(** ** The reset endpoint *)

(** C10. A successful POST /api/reset answers the requested value as
    [new_count] while the table holds [max(0, value)]; for a negative
    value the table holds 0 and the answer differs from it. *)
Theorem C10_reset_answers_requested_value (db db' : database.DynamoDBManager)
    (a now : string) (v : Z) (response : main.ResetResponse) :
  main.reset_area_capacity a v db now = (db', inr response) ->
  main.new_count response = v /\
  exists tbl',
    database.table db' = Some tbl' /\
    stored_count tbl' a = Some (Z.max 0 v) /\
    (v < 0 ->
     stored_count tbl' a = Some 0 /\
     stored_count tbl' a <> Some (main.new_count response)).
Proof.
  unfold main.reset_area_capacity. destruct db as [[tbl |]].
  - change {| database.table := Some tbl |} with (with_table tbl).
    destruct (set_capacity_store tbl a now v) as (tbl' & r & Hrun & Hc & _).
    rewrite Hrun. destruct r as [e | [area |]]; intros Heq; simplify_eq.
    cbn [main.new_count]. split; [done |]. exists tbl'. split; [done |].
    split; [done |]. intros Hneg. rewrite Hc.
    split; [f_equal; lia |]. intros Hbad. simplify_eq. lia.
  - cbn. intros Heq. simplify_eq.
Qed.

(** A reset of the weight room to -5: the answer says -5, the table 0. *)
Lemma C10_reset_minus_five :
  exists db' response tbl',
    main.reset_area_capacity "weight-room" (-5) (with_table (sample_table 45)) later =
      (db', inr response) /\
    main.new_count response = -5 /\
    database.table db' = Some tbl' /\
    stored_count tbl' "weight-room" = Some 0.
Proof.
  eexists _, _, _.
  assert (main.reset_area_capacity "weight-room" (-5) (with_table (sample_table 45)) later
          = (with_table (<[area_key "weight-room" :=
                             dynamodb.set_count_stamp (Z.max 0 (-5)) later
                               (row_or_new (sample_table 45) "weight-room")]>
                           (sample_table 45)),
             inr {| main.success := true; main.area_id := "weight-room";
                    main.new_count := -5; main.timestamp := later |})) as Hrun
    by (vm_compute; reflexivity).
  destruct (C10_reset_answers_requested_value _ _ _ _ _ _ Hrun)
    as (Hnew & tbl' & Htbl & _ & Hneg).
  split; [exact Hrun |]. split; [exact Hnew |].
  split; [reflexivity |]. cbn in Htbl. injection Htbl as <-.
  apply Hneg. lia.
Defined.

(** ** Concurrent invocations *)

Lemma progress_nonneg (cs : list concurrent.call) : 0 <= progress cs.
Proof.
  induction cs as [| c cs IH]; cbn; [lia |]. fold (progress cs).
  destruct c; cbn; lia.
Qed.

Lemma progress_insert (cs : list concurrent.call) (i : nat) (c c' : concurrent.call) :
  cs !! i = Some c ->
  progress (<[i := c']> cs) = progress cs - added c + added c'.
Proof.
  revert i. induction cs as [| x cs IH]; intros [| i] Hi; simplify_eq/=.
  - fold (progress cs). lia.
  - fold (progress cs) (progress (<[i := c']> cs)). rewrite (IH i Hi). lia.
Qed.

Lemma progress_finished (cs : list concurrent.call) :
  forallb concurrent.is_done cs = true -> progress cs = Z.of_nat (length cs).
Proof.
  induction cs as [| c cs IH]; cbn; [done |]. fold (progress cs).
  intros [Hc Hcs]%andb_prop. rewrite (IH Hcs). destruct c; cbn in *; done || lia.
Qed.

Lemma progress_replicate_start (n : nat) (a action now : string) (k : Z) :
  progress (replicate n (concurrent.Start a action k now)) = 0.
Proof. induction n as [| n IH]; cbn; [done |]. exact IH. Qed.

Lemma step_entries_inv (a : string) (n0 : Z) (i : nat) (s s' : concurrent.state) :
  0 <= n0 ->
  entries_inv a n0 s ->
  concurrent.step i s = Some s' ->
  entries_inv a n0 s' /\ length s'.2 = length s.2.
Proof.
  intros Hn0 [Hall Hcount] Hstep. destruct s as [tbl cs]. cbn [fst snd] in *.
  unfold concurrent.step in Hstep. cbn [fst snd] in Hstep.
  destruct (cs !! i) as [c |] eqn:Hi; [| done].
  pose proof (Forall_lookup_1 _ _ _ _ Hall Hi) as Hc.
  pose proof (progress_nonneg cs) as Hprog.
  destruct c as [a' action count now | a' item | r]; cbn [concurrent.step_call] in Hstep.
  - destruct Hc as (-> & -> & ->).
    unfold capacity_updater.update_capacity_add in Hstep.
    set (upd := fun i => dynamodb.add_update_count 1 (dynamodb.add_count _ now i)) in Hstep.
    pose proof (stored_update_item_eq tbl a upd) as Heq.
    pose proof (update_item_attributes tbl a upd) as Hattr.
    destruct (dynamodb.update_item (area_key a) upd tbl) as [tbl1 resp].
    cbn [fst snd] in *. rewrite Hattr, Heq in Hstep. cbn [getitem ret] in Hstep.
    simplify_eq. cbn [fst snd]. split; [| by rewrite length_insert].
    fold (row_or_new tbl a) in *.
    assert (Item.current_count (upd (row_or_new tbl a)) =
            Some (count_or_zero tbl a + 1)) as Hnew.
    { subst upd. cbn. by rewrite count_row_or_new. }
    split; cbn [fst snd].
    + apply Forall_insert; [done |]. cbn. split; [done |].
      eexists. split; [exact Hnew | lia].
    + rewrite (progress_insert _ _ _ _ Hi). cbn [added].
      unfold count_or_zero, stored_count. rewrite Heq. cbn [mbind option_bind].
      rewrite Hnew. cbn [default id]. lia.
  - destruct Hc as (-> & k & Hk & Hk0).
    unfold capacity_updater.update_capacity_floor in Hstep.
    rewrite Hk in Hstep. cbn [getitem ret] in Hstep.
    destruct (Z.ltb_spec k 0); [lia |]. simplify_eq. cbn [fst snd].
    split; [| by rewrite length_insert]. split; cbn [fst snd].
    + by apply Forall_insert.
    + rewrite (progress_insert _ _ _ _ Hi). cbn [added]. lia.
  - done.
Qed.

Lemma run_entries_inv (a : string) (n0 : Z) (schedule : list nat)
    (s s' : concurrent.state) :
  0 <= n0 ->
  entries_inv a n0 s ->
  concurrent.run schedule s = Some s' ->
  entries_inv a n0 s' /\ length s'.2 = length s.2.
Proof.
  intros Hn0. revert s. induction schedule as [| i schedule IH]; intros s Hinv Hrun.
  - cbn in Hrun. by simplify_eq.
  - cbn [concurrent.run] in Hrun.
    destruct (concurrent.step i s) as [s1 |] eqn:Hstep; [| done].
    destruct (step_entries_inv a n0 i s s1 Hn0 Hinv Hstep) as [Hinv1 Hlen1].
    destruct (IH s1 Hinv1 Hrun) as [Hinv' Hlen']. split; [done | congruence].
Qed.

(** Entries alone are never lost: [n] concurrent entries of one on an area
    holding [n0 >= 0] leave [n0 + n] under every schedule that runs them
    all to the end. *)
Lemma concurrent_entries_all_counted (tbl : Table) (a now : string) (n : nat)
    (schedule : list nat) (s' : concurrent.state) :
  0 <= count_or_zero tbl a ->
  concurrent.run schedule (tbl, replicate n (concurrent.Start a "enter" 1 now)) = Some s' ->
  concurrent.finished s' = true ->
  count_or_zero s'.1 a = count_or_zero tbl a + Z.of_nat n.
Proof.
  intros Hn0 Hrun Hfin.
  assert (entries_inv a (count_or_zero tbl a)
            (tbl, replicate n (concurrent.Start a "enter" 1 now))) as Hinv.
  { split; cbn [fst snd].
    - apply Forall_replicate. cbn. done.
    - rewrite progress_replicate_start. lia. }
  destruct (run_entries_inv a _ schedule _ s' Hn0 Hinv Hrun) as [[_ Hcount] Hlen].
  rewrite Hcount, (progress_finished _ Hfin), Hlen. cbn [snd].
  by rewrite length_replicate.
Qed.

(** Between the two requests of one apply a reader does see the negative
    count: from 3, an exit of 10 first stores -7. *)
Lemma negative_between_requests :
  stored_count
    (capacity_updater.update_capacity_add "weight-room" "exit" 10 later
       (sample_table 3)).1 "weight-room" = Some (-7).
Proof. vm_compute. reflexivity. Qed.

(** *** Every run can be finished *)





(** Three entries, interleaved: all three are counted. *)
Lemma three_entries_interleaved :
  let start : concurrent.state :=
    (sample_table 0, replicate 3 (concurrent.Start "weight-room" "enter" 1 later)) in
  exists s',
    concurrent.run [2; 0; 1; 1; 0; 2]%nat start = Some s' /\
    concurrent.finished s' = true /\
    count_or_zero s'.1 "weight-room" = 3.
Proof.
  cbv zeta.
  assert (final_count "weight-room" [2; 0; 1; 1; 0; 2]%nat
            (sample_table 0, replicate 3 (concurrent.Start "weight-room" "enter" 1 later))
          = Some 3) as Hfinal by (vm_compute; reflexivity).
  unfold final_count in Hfinal.
  destruct (concurrent.run _ _) as [s' |] eqn:Hrun; [| done].
  destruct (concurrent.finished s') eqn:Hfin; [| done].
  exists s'. split; [reflexivity |]. split; [exact Hfin |].
  rewrite (concurrent_entries_all_counted (sample_table 0) "weight-room" later 3
             [2; 0; 1; 1; 0; 2]%nat s'); [reflexivity | | exact Hrun | exact Hfin].
  vm_compute. discriminate.
Defined.

(** C8, at the failing input.  The weight room holds 0; one exit and two
    entries of one run together.  The exit's add answers -1, both entries
    add and finish (they answer 0 and 1), then the exit's corrective write
    stores 0: both entries are lost.  Run one after the other, in any of
    the six orders, the three calls leave 1 or 2. *)
Theorem C8_racing_floor_loses_entries :
  let calls :=
    [concurrent.Start "weight-room" "exit" 1 later;
     concurrent.Start "weight-room" "enter" 1 later;
     concurrent.Start "weight-room" "enter" 1 later] in
  let start : concurrent.state := (sample_table 0, calls) in
  final_count "weight-room" [0; 1; 1; 2; 2; 0]%nat start = Some 0 /\
  answered_counts [0; 1; 1; 2; 2; 0]%nat start = [Some 0; Some 0; Some 1] /\
  (fun serial => final_count "weight-room" serial start) <$>
    [[0; 0; 1; 1; 2; 2]; [0; 0; 2; 2; 1; 1]; [1; 1; 0; 0; 2; 2];
     [1; 1; 2; 2; 0; 0]; [2; 2; 0; 0; 1; 1]; [2; 2; 1; 1; 0; 0]]%nat =
    [Some 2; Some 2; Some 1; Some 1; Some 1; Some 1].
Proof. cbv zeta. repeat split; vm_compute; reflexivity. Qed.

(** * Further properties *)

(** ** The writes, row by row *)

Lemma lambda_update_capacity_eq (tbl : Table) (a action now : string) (n : Z) :
  let item :=
    dynamodb.add_update_count 1
      (dynamodb.add_count (increment_of action n) now (row_or_new tbl a)) in
  capacity_updater.update_capacity a action n now tbl =
  if count_or_zero tbl a + increment_of action n <? 0 then
    (<[area_key a := dynamodb.set_count 0 item]> tbl, inr (dynamodb.set_count 0 item))
  else
    (<[area_key a := item]> tbl, inr item).
Proof.
  intros item. rewrite <- count_row_or_new.
  unfold capacity_updater.update_capacity, capacity_updater.update_capacity_add,
    capacity_updater.update_capacity_floor, dynamodb.update_item.
  cbn -[Z.ltb area_key]. fold (stored tbl a) (row_or_new tbl a).
  fold (increment_of action n). fold item.
  destruct (_ <? 0); [| done].
  rewrite lookup_insert_eq, insert_insert_eq. done.
Qed.

Lemma row_or_new_insert (tbl : Table) (a : string) (i : Item.t) :
  row_or_new (<[area_key a := i]> tbl) a = i.
Proof. unfold row_or_new. by rewrite stored_insert_eq. Qed.

(** The row under the area's key after a mutation, and the rest of the
    table. *)
Lemma run_mutation_row (a : string) (m : mutation) (tbl : Table) :
  exists row',
    run_mutation a m tbl = <[area_key a := row']> tbl /\
    same_metadata (row_or_new tbl a) row'.
Proof.
  destruct m as [action n now | action now | v now]; cbn [run_mutation].
  - rewrite lambda_update_capacity_eq. cbv zeta.
    destruct (_ <? 0); eexists; (split; [reflexivity |]); by repeat split.
  - rewrite update_capacity_eq. cbv zeta.
    destruct (_ <? 0).
    + rewrite set_capacity_eq. cbn [fst table_after with_table database.table].
      rewrite insert_insert_eq. eexists. split; [reflexivity |].
      rewrite row_or_new_insert. by repeat split.
    + cbn. eexists. split; [reflexivity |]. by repeat split.
  - rewrite set_capacity_eq. cbn. eexists. split; [reflexivity |]. by repeat split.
Qed.

(** ** What a mutation touches *)

(** X1. A mutation on one area changes no row under any other key. *)
Theorem mutation_leaves_other_rows (a : string) (m : mutation) (tbl : Table)
    (key : string * string) :
  key <> area_key a ->
  run_mutation a m tbl !! key = tbl !! key.
Proof.
  intros Hne. destruct (run_mutation_row a m tbl) as (row' & -> & _).
  by rewrite lookup_insert_ne.
Qed.

Lemma mutation_leaves_other_rows_pool :
  run_mutation "weight-room" (LambdaApply "exit" 10 later) (sample_table 3)
    !! area_key "pool" =
  sample_table 3 !! area_key "pool".
Proof. apply mutation_leaves_other_rows. discriminate. Defined.

(** X2. On a row that exists, a mutation keeps the key attributes, the
    area id, the name, the capacity, the open flag and the creation stamp:
    only the count, the update stamp and the update counter can change. *)
Theorem mutation_keeps_metadata (a : string) (m : mutation) (tbl : Table)
    (row : Item.t) :
  stored tbl a = Some row ->
  exists row',
    stored (run_mutation a m tbl) a = Some row' /\ same_metadata row row'.
Proof.
  intros Hrow. destruct (run_mutation_row a m tbl) as (row' & -> & Hsame).
  exists row'. split; [apply stored_insert_eq |].
  unfold row_or_new in Hsame. by rewrite Hrow in Hsame.
Qed.

Lemma mutation_keeps_metadata_weight_room :
  exists row',
    stored (run_mutation "weight-room" (BackendSet (-3) later) (sample_table 45))
      "weight-room" = Some row' /\
    same_metadata (sample_row "weight-room" "Weight Room" 45 100) row'.
Proof.
  apply (mutation_keeps_metadata "weight-room" (BackendSet (-3) later) (sample_table 45)).
  reflexivity.
Defined.

(** ** Rows carry their key *)

Lemma keyed_empty : keyed ∅.
Proof. intros key row Hrow. by rewrite lookup_empty in Hrow. Qed.

Lemma keyed_insert (tbl : Table) (key : string * string) (row : Item.t) :
  keyed tbl -> (Item.PK row, Item.SK row) = key -> keyed (<[key := row]> tbl).
Proof.
  intros Hk Hrow key' row' Hlook.
  destruct (decide (key = key')) as [<- | Hne].
  - rewrite lookup_insert_eq in Hlook. by simplify_eq.
  - rewrite lookup_insert_ne in Hlook by done. by apply Hk.
Qed.

Lemma keyed_put_item (tbl : Table) (item : Item.t) :
  keyed tbl -> keyed (dynamodb.put_item item tbl).
Proof. intros Hk. by apply keyed_insert. Qed.

Lemma keyed_row_or_new (tbl : Table) (a : string) :
  keyed tbl ->
  (Item.PK (row_or_new tbl a), Item.SK (row_or_new tbl a)) = area_key a.
Proof.
  intros Hk. unfold row_or_new, stored.
  destruct (tbl !! area_key a) as [row |] eqn:Hrow; [by apply Hk | done].
Qed.

Lemma keyed_sample_table (n : Z) : keyed (sample_table n).
Proof. unfold sample_table. do 2 apply keyed_put_item. apply keyed_empty. Qed.

(** Every write of the repository keeps each row under the key its
    own PK and SK attributes name: the three mutations and [create_area]. *)
Theorem writes_keep_rows_keyed (tbl : Table) :
  keyed tbl ->
  (forall a m, keyed (run_mutation a m tbl)) /\
  (forall a nm cap open now,
     keyed (table_after
              (database.create_area (with_table tbl) a nm cap open now).1 tbl)).
Proof.
  intros Hk. split.
  - intros a m. destruct (run_mutation_row a m tbl) as (row' & -> & Hsame).
    apply keyed_insert; [done |].
    destruct Hsame as (-> & -> & _). by apply keyed_row_or_new.
  - intros a nm cap open now. cbn. by apply keyed_put_item.
Qed.

Lemma writes_keep_sample_keyed :
  keyed (run_mutation "sauna" (BackendApply "exit" later) (sample_table 45)) /\
  keyed (table_after
           (database.create_area (with_table (sample_table 45)) "annex" "Annex" 25
              true later).1 (sample_table 45)).
Proof.
  destruct (writes_keep_rows_keyed (sample_table 45) (keyed_sample_table 45))
    as [Hm Hc].
  split; [apply Hm | apply Hc].
Defined.

(** ** Areas that are answered *)

Lemma get_all_areas_listing (tbl : Table) (now : string) :
  database.get_all_areas (with_table tbl) now = inr (listing tbl now).
Proof. reflexivity. Qed.

(** What a conversion that succeeds says about the row. *)
Lemma to_area_inv (item : Item.t) (now : string) (area : AreaCapacity.t) :
  database.to_area item now = inr area ->
  Item.area_id item = Some (AreaCapacity.area_id area) /\
  Item.name item = Some (AreaCapacity.name area) /\
  Item.current_count item = Some (AreaCapacity.current_count area) /\
  Item.max_capacity item = Some (AreaCapacity.max_capacity area) /\
  valid_area area.
Proof.
  unfold database.to_area, valid_area.
  destruct (Item.area_id item) as [id |]; [| done].
  destruct (Item.name item) as [nm |]; [| done].
  destruct (Item.current_count item) as [c |]; [| done].
  destruct (Item.max_capacity item) as [cap |]; [| done].
  cbn [getitem ret bind]. unfold AreaCapacity.validate.
  cbn [AreaCapacity.current_count AreaCapacity.max_capacity].
  destruct (Z.ltb_spec c 0), (Z.leb_spec cap 0); cbn; intros Heq;
    unfold ret, raise in Heq; simplify_eq.
  cbn. repeat split; (done || lia).
Qed.

Lemma listing_elem (tbl : Table) (now : string) (area : AreaCapacity.t) :
  area ∈ listing tbl now <->
  exists key row,
    tbl !! key = Some row /\ Item.SK row = "METADATA"%string /\
    database.to_area row now = inr area.
Proof.
  unfold listing, dynamodb.scan. rewrite list_elem_of_omap. split.
  - intros (row & Hin & Hconv).
    apply list_elem_of_filter in Hin as [Hsk Hin].
    apply list_elem_of_fmap in Hin as ([key row'] & -> & Hin).
    apply elem_of_map_to_list in Hin. cbn in *.
    apply bool_decide_eq_true in Hsk.
    exists key, row'. split; [done |]. split; [done |].
    unfold convert in Hconv. destruct (database.to_area row' now); by simplify_eq.
  - intros (key & row & Hrow & Hsk & Hconv). exists row. split.
    + apply list_elem_of_filter. split; [by apply bool_decide_eq_true |].
      apply list_elem_of_fmap. exists (key, row). split; [done |].
      by apply elem_of_map_to_list.
    + unfold convert. by rewrite Hconv.
Qed.

(** X3. No operation of the manager answers an area with a negative count
    or a capacity that is not positive: a row that would give one makes the
    call raise, and the listing drops it. *)
Theorem answered_areas_are_valid (self : database.DynamoDBManager) (a now : string) :
  (forall area, database.get_area self a now = inr (Some area) -> valid_area area) /\
  (forall areas, database.get_all_areas self now = inr areas -> Forall valid_area areas) /\
  (forall v area,
     (database.set_capacity self a v now).2 = inr (Some area) -> valid_area area) /\
  (forall action area,
     (database.update_capacity self a action now).2 = inr (Some area) ->
     valid_area area) /\
  (forall nm cap open area,
     (database.create_area self a nm cap open now).2 = inr area -> valid_area area).
Proof.
  destruct self as [[tbl |]].
  2: { repeat split; cbn; unfold ret, raise; intros; simplify_eq. constructor. }
  change {| database.table := Some tbl |} with (with_table tbl).
  split; [| split; [| split; [| split]]].
  - intros area. unfold database.get_area, dynamodb.get_item. cbn [with_table database.table].
    destruct (tbl !! area_key a) as [row |]; [| done].
    destruct (database.to_area row now) as [e | area'] eqn:Hconv;
      intros Heq; cbn in Heq; unfold ret, raise in Heq; simplify_eq.
    by apply to_area_inv in Hconv as (_ & _ & _ & _ & Hv).
  - intros areas. rewrite get_all_areas_listing. intros Heq. simplify_eq.
    apply Forall_forall. intros area Hin.
    apply listing_elem in Hin as (key & row & _ & _ & Hconv).
    by apply to_area_inv in Hconv as (_ & _ & _ & _ & Hv).
  - intros v area. rewrite set_capacity_eq. cbv zeta. cbn [snd].
    destruct (database.to_area _ now) as [e | area'] eqn:Hconv;
      intros Heq; cbn in Heq; unfold ret, raise in Heq; simplify_eq.
    by apply to_area_inv in Hconv as (_ & _ & _ & _ & Hv).
  - intros action area. rewrite update_capacity_eq. cbv zeta.
    destruct (_ <? 0); cbn [snd].
    + destruct (database.set_capacity _ a 0 now).2 as [e | r]; [done |].
      cbn [bind].
      destruct (database.to_area _ now) as [e | area'] eqn:Hconv;
        intros Heq; cbn in Heq; unfold ret, raise in Heq; simplify_eq.
      by apply to_area_inv in Hconv as (_ & _ & _ & _ & Hv).
    + destruct (database.to_area _ now) as [e | area'] eqn:Hconv;
        intros Heq; cbn in Heq; unfold ret, raise in Heq; simplify_eq.
      by apply to_area_inv in Hconv as (_ & _ & _ & _ & Hv).
  - intros nm cap open area. unfold database.create_area. cbn [with_table database.table snd].
    unfold AreaCapacity.validate, valid_area.
    cbn [AreaCapacity.current_count AreaCapacity.max_capacity].
    destruct (Z.leb_spec cap 0); cbn; unfold ret, raise; intros Heq; simplify_eq.
    cbn. lia.
Qed.

Lemma answered_weight_room_is_valid :
  valid_area (AreaCapacity.make "weight-room" "Weight Room" 45 100 true
                "2024-02-07T14:30:00").
Proof.
  apply (answered_areas_are_valid (with_table (sample_table 45)) "weight-room" later).
  vm_compute. reflexivity.
Defined.

(** X4. Under a keyed table, an area that [get_area] answers is in the
    list of [get_all_areas] taken at the same time, and every listed area
    is the conversion of a row of the table. *)
Theorem get_area_is_listed (tbl : Table) (a now : string) (area : AreaCapacity.t) :
  keyed tbl ->
  database.get_area (with_table tbl) a now = inr (Some area) ->
  exists areas,
    database.get_all_areas (with_table tbl) now = inr areas /\
    area ∈ areas /\
    (forall area', area' ∈ areas ->
       exists key row, tbl !! key = Some row /\ database.to_area row now = inr area').
Proof.
  intros Hk Hget. exists (listing tbl now). split; [apply get_all_areas_listing |].
  split.
  - unfold database.get_area, dynamodb.get_item in Hget.
    cbn [with_table database.table] in Hget.
    destruct (tbl !! area_key a) as [row |] eqn:Hrow; [| done].
    destruct (database.to_area row now) as [e | area'] eqn:Hconv;
      cbn in Hget; unfold ret, raise in Hget; simplify_eq.
    apply listing_elem. exists (area_key a), row.
    split; [done |]. split; [| done].
    apply Hk in Hrow. unfold area_key in Hrow. by simplify_eq.
  - intros area' Hin. apply listing_elem in Hin as (key & row & Hrow & _ & Hconv).
    by exists key, row.
Qed.

Lemma get_pool_is_listed :
  exists area areas,
    database.get_area (with_table (sample_table 45)) "pool" later = inr (Some area) /\
    database.get_all_areas (with_table (sample_table 45)) later = inr areas /\
    area ∈ areas.
Proof.
  assert (database.get_area (with_table (sample_table 45)) "pool" later =
          inr (Some (AreaCapacity.make "pool" "Swimming Pool" 12 40 true
                       "2024-02-07T14:30:00"))) as Hget
    by (vm_compute; reflexivity).
  destruct (get_area_is_listed (sample_table 45) "pool" later _
              (keyed_sample_table 45) Hget) as (areas & Hall & Hin & _).
  eexists _, areas. split; [exact Hget |]. split; [exact Hall | exact Hin].
Defined.

(** ** Rows that are not listed *)

(** The listing of a table with one more row is the row's share in front
    of the old listing, up to the order of the scan. *)
Lemma listing_insert_fresh (tbl : Table) (key : string * string) (row : Item.t)
    (now : string) :
  tbl !! key = None ->
  listing (<[key := row]> tbl) now ≡ₚ listing_row now row ++ listing tbl now.
Proof.
  intros Hnone. unfold listing, dynamodb.scan, listing_row.
  rewrite (map_to_list_insert tbl key row Hnone). cbn [fmap list_fmap snd].
  rewrite filter_cons. destruct (decide (Item.SK row = "METADATA"%string)) as [Hsk | Hsk].
  - rewrite decide_True by (by apply bool_decide_eq_true).
    cbn [omap list_omap]. by destruct (convert now row).
  - rewrite decide_False; [done |]. intros Hb. by apply bool_decide_eq_true in Hb.
Qed.

Lemma listing_replace (tbl : Table) (key : string * string) (row : Item.t)
    (now : string) :
  listing (<[key := row]> tbl) now ≡ₚ
  listing_row now row ++ listing (delete key tbl) now.
Proof.
  rewrite <- insert_delete_eq. apply listing_insert_fresh, lookup_delete_eq.
Qed.

Lemma listing_delete (tbl : Table) (key : string * string) (row : Item.t)
    (now : string) :
  tbl !! key = Some row ->
  listing tbl now ≡ₚ listing_row now row ++ listing (delete key tbl) now.
Proof.
  intros Hrow. rewrite <- (insert_id tbl key row Hrow) at 1. apply listing_replace.
Qed.

Lemma same_listing (tbl tbl' : Table) (now : string) :
  listing tbl now ≡ₚ listing tbl' now ->
  exists areas areas',
    database.get_all_areas (with_table tbl) now = inr areas /\
    database.get_all_areas (with_table tbl') now = inr areas' /\
    areas ≡ₚ areas'.
Proof. intros Hperm. by exists (listing tbl now), (listing tbl' now). Qed.

Lemma to_area_negative (item : Item.t) (now id nm : string) (c cap : Z) :
  Item.area_id item = Some id -> Item.name item = Some nm ->
  Item.current_count item = Some c -> Item.max_capacity item = Some cap ->
  c < 0 -> 0 < cap ->
  database.to_area item now = inl (ValidationError ["current_count"%string]).
Proof.
  intros Hid Hnm Hc Hcap Hneg Hpos. unfold database.to_area.
  rewrite Hid, Hnm, Hc, Hcap. cbn [getitem ret bind]. unfold AreaCapacity.validate.
  cbn [AreaCapacity.current_count AreaCapacity.max_capacity].
  destruct (Z.ltb_spec c 0); [| lia]. destruct (Z.leb_spec cap 0); [lia |]. done.
Qed.

(** X5. While a registered area's stored count is negative (between the
    two requests of an apply), a read of the area raises the model's
    validation error, the endpoint answers 500, and the list of all areas
    is the one the table would give without that row. *)
Theorem negative_row_is_not_served (tbl : Table) (a now : string) (c : Z) :
  registered tbl a ->
  stored_count tbl a = Some c ->
  c < 0 ->
  database.get_area (with_table tbl) a now =
    inl (ValidationError ["current_count"%string]) /\
  main.get_area_capacity a (with_table tbl) now =
    inl {| main.status_code := 500;
           main.http_detail :=
             main.Failed "Failed to fetch area capacity: "
               (ValidationError ["current_count"%string]) |} /\
  exists areas areas',
    database.get_all_areas (with_table tbl) now = inr areas /\
    database.get_all_areas (with_table (delete (area_key a) tbl)) now = inr areas' /\
    areas ≡ₚ areas'.
Proof.
  intros (row & id & nm & cap & Hrow & Hid & Hnm & Hcap & Hpos) Hc Hneg.
  unfold stored_count in Hc. rewrite Hrow in Hc. cbn in Hc.
  pose proof (to_area_negative row now id nm c cap Hid Hnm Hc Hcap Hneg Hpos) as Hconv.
  assert (database.get_area (with_table tbl) a now =
          inl (ValidationError ["current_count"%string])) as Hget.
  { unfold database.get_area, dynamodb.get_item. cbn [with_table database.table].
    unfold stored in Hrow. by rewrite Hrow, Hconv. }
  split; [exact Hget |]. split.
  - unfold main.get_area_capacity. by rewrite Hget.
  - apply same_listing. rewrite (listing_delete tbl (area_key a) row now Hrow).
    unfold listing_row, convert. rewrite Hconv. by destruct (decide _).
Qed.

Lemma negative_weight_room_is_not_served :
  let tbl :=
    (capacity_updater.update_capacity_add "weight-room" "exit" 10 later
       (sample_table 3)).1 in
  stored_count tbl "weight-room" = Some (-7) /\
  database.get_area (with_table tbl) "weight-room" later =
    inl (ValidationError ["current_count"%string]).
Proof.
  cbv zeta.
  destruct (negative_row_is_not_served
              (capacity_updater.update_capacity_add "weight-room" "exit" 10 later
                 (sample_table 3)).1 "weight-room" later (-7)) as (Hget & _ & Hlist).
  - eexists _, "weight-room"%string, "Weight Room"%string, 100.
    split; [vm_compute; reflexivity |]. by repeat split.
  - vm_compute. reflexivity.
  - lia.
  - split; [vm_compute; reflexivity | exact Hget].
Defined.

(** X6. After an apply through the backend on an area without a row, the
    row it left behind no longer reads as "not found": [get_area] raises
    [KeyError], the endpoint answers 500, and the list of all areas is
    unchanged up to order. *)
Theorem unknown_area_after_apply (tbl : Table) (a action now now' : string) :
  stored tbl a = None ->
  let db' := (database.update_capacity (with_table tbl) a action now).1 in
  database.get_area db' a now' = inl (KeyError "area_id") /\
  main.get_area_capacity a db' now' =
    inl {| main.status_code := 500;
           main.http_detail :=
             main.Failed "Failed to fetch area capacity: " (KeyError "area_id") |} /\
  exists areas areas',
    database.get_all_areas db' now' = inr areas /\
    database.get_all_areas (with_table tbl) now' = inr areas' /\
    areas ≡ₚ areas'.
Proof.
  intros Hnone db'.
  destruct (backend_apply_unknown tbl a action now Hnone)
    as (tbl' & item & Hrun & Hst & Hid & _).
  destruct (run_mutation_row a (BackendApply action now) tbl) as (row' & Hrow' & _).
  cbn [run_mutation] in Hrow'. subst db'. rewrite Hrun in *.
  cbn [fst table_after with_table database.table] in *. subst tbl'.
  rewrite stored_insert_eq in Hst. simplify_eq.
  assert (database.to_area item now' = inl (KeyError "area_id")) as Hconv.
  { unfold database.to_area. by rewrite Hid. }
  assert (database.get_area (with_table (<[area_key a := item]> tbl)) a now' =
          inl (KeyError "area_id")) as Hget.
  { unfold database.get_area, dynamodb.get_item. cbn [with_table database.table].
    by rewrite lookup_insert_eq, Hconv. }
  split; [exact Hget |]. split.
  - unfold main.get_area_capacity. by rewrite Hget.
  - apply same_listing. rewrite listing_insert_fresh by exact Hnone.
    unfold listing_row, convert. rewrite Hconv. by destruct (decide _).
Qed.

Lemma unknown_sauna_after_apply :
  stored (sample_table 45) "sauna" = None /\
  database.get_area
    (database.update_capacity (with_table (sample_table 45)) "sauna" "enter" later).1
    "sauna" later = inl (KeyError "area_id").
Proof.
  split; [reflexivity |].
  apply (unknown_area_after_apply (sample_table 45) "sauna" "enter" later later).
  reflexivity.
Defined.

(** ** Create, then read *)



(** ** The backend's apply on a registered area *)

Lemma registered_after_add (tbl : Table) (a now : string) (inc : Z) :
  registered tbl a ->
  exists id nm cap,
    let row := dynamodb.add_count inc now (row_or_new tbl a) in
    Item.area_id row = Some id /\ Item.name row = Some nm /\
    Item.max_capacity row = Some cap /\ 0 < cap /\
    Item.current_count row = Some (count_or_zero tbl a + inc) /\
    Item.max_capacity (row_or_new tbl a) = Some cap.
Proof.
  intros (item & id & nm & cap & Hst & Hid & Hnm & Hcap & Hpos).
  exists id, nm, cap. unfold count_or_zero, stored_count, row_or_new.
  rewrite Hst. cbn. done.
Qed.

(** X8. On a registered area POST /api/update with "enter" or "exit"
    succeeds, and the [new_count] it answers is the count now stored:
    the old count plus or minus one, floored at 0. *)
Theorem backend_update_answers_stored_count (tbl : Table) (a action now : string)
    (c : Z) (ts : option string) :
  registered tbl a ->
  action = "enter"%string \/ action = "exit"%string ->
  exists tbl' response,
    main.update_capacity (UpdateCapacityRequest.make a action c ts) (with_table tbl) now =
      (with_table tbl', inr response) /\
    main.upd_new_count response = Z.max 0 (count_or_zero tbl a + increment_of action 1) /\
    stored_count tbl' a = Some (main.upd_new_count response).
Proof.
  intros Hreg Haction.
  destruct (update_capacity_store tbl a action now) as (tbl' & r & Hrun & Hc & _).
  unfold main.update_capacity.
  cbn [UpdateCapacityRequest.action UpdateCapacityRequest.area_id].
  rewrite decide_True by done. rewrite Hrun.
  assert (exists area, r = inr (Some area) /\
            AreaCapacity.current_count area =
              Z.max 0 (count_or_zero tbl a + increment_of action 1)) as (area & -> & Harea).
  { rewrite update_capacity_eq in Hrun. cbv zeta in Hrun. unfold increment_of.
    set (inc := if decide (action = "enter"%string) then 1 else -1) in *.
    change (- (1)) with (-1). fold inc.
    destruct (registered_after_add tbl a now inc Hreg)
      as (id & nm & cap & Hid & Hnm & Hcap & Hpos & Hcnt & _).
    cbv zeta in Hid, Hnm, Hcap, Hcnt.
    set (item := dynamodb.add_count inc now (row_or_new tbl a)) in *.
    destruct (Z.ltb_spec (count_or_zero tbl a + inc) 0) as [Hneg | Hnn].
    - rewrite set_capacity_eq in Hrun. cbv zeta in Hrun. cbn [fst snd] in Hrun.
      rewrite row_or_new_insert in Hrun.
      rewrite (to_area_ok _ now id nm (Z.max 0 0) cap) in Hrun by (done || lia).
      cbn [bind ret] in Hrun.
      rewrite (to_area_ok _ now id nm 0 cap) in Hrun by (done || lia).
      cbn [bind ret] in Hrun. injection Hrun as _ <-.
      eexists. split; [reflexivity |]. cbn. lia.
    - rewrite (to_area_ok item now id nm (count_or_zero tbl a + inc) cap) in Hrun
        by (done || lia).
      cbn [bind ret] in Hrun. injection Hrun as _ <-.
      eexists. split; [reflexivity |]. cbn. lia. }
  eexists _, _. split; [reflexivity |]. cbn [main.upd_new_count].
  split; [exact Harea |]. by rewrite Hc, Harea.
Qed.

Lemma backend_update_pool_exit :
  exists tbl' response,
    main.update_capacity (UpdateCapacityRequest.make "pool" "exit" 1 None)
      (with_table (sample_table 45)) later = (with_table tbl', inr response) /\
    main.upd_new_count response = 11 /\
    stored_count tbl' "pool" = Some 11.
Proof.
  destruct (backend_update_answers_stored_count (sample_table 45) "pool" "exit" later
              1 None) as (tbl' & response & Hrun & Hnew & Hst).
  - eexists _, "pool"%string, "Swimming Pool"%string, 40.
    split; [vm_compute; reflexivity |]. by repeat split.
  - by right.
  - exists tbl', response. split; [exact Hrun |].
    rewrite Hst, Hnew. split; reflexivity.
Defined.



(** ** Validated requests *)

Lemma lower_enter_exit (s : string) :
  s = "enter"%string \/ s = "exit"%string -> lower s = s.
Proof. by intros [-> | ->]. Qed.

(** X10. [UpdateCapacityRequest] accepts a request exactly when its action,
    lowered, is "enter" or "exit" and its count is between 1 and 10; the
    accepted request carries the lowered action, is accepted again
    unchanged, and is never refused with 400 by POST /api/update. *)
Theorem validated_request_is_well_formed (r : UpdateCapacityRequest.t) :
  ((exists r', UpdateCapacityRequest.validate r = inr r') <->
   (lower (UpdateCapacityRequest.action r) = "enter"%string \/
    lower (UpdateCapacityRequest.action r) = "exit"%string) /\
   1 <= UpdateCapacityRequest.count r <= 10) /\
  (forall r',
     UpdateCapacityRequest.validate r = inr r' ->
     r' = UpdateCapacityRequest.make (UpdateCapacityRequest.area_id r)
            (lower (UpdateCapacityRequest.action r))
            (UpdateCapacityRequest.count r) (UpdateCapacityRequest.timestamp r) /\
     UpdateCapacityRequest.validate r' = inr r' /\
     forall db now e,
       (main.update_capacity r' db now).2 = inl e -> main.status_code e <> 400).
Proof.
  assert (forall r r', UpdateCapacityRequest.validate r = inr r' ->
            (lower (UpdateCapacityRequest.action r) = "enter"%string \/
             lower (UpdateCapacityRequest.action r) = "exit"%string) /\
            1 <= UpdateCapacityRequest.count r <= 10 /\
            r' = UpdateCapacityRequest.make (UpdateCapacityRequest.area_id r)
                   (lower (UpdateCapacityRequest.action r))
                   (UpdateCapacityRequest.count r) (UpdateCapacityRequest.timestamp r))
    as Hinv.
  { intros q q'. unfold UpdateCapacityRequest.validate.
    destruct (decide _) as [Hact | Hact]; [| done].
    destruct (Z.ltb_spec (UpdateCapacityRequest.count q) 1); [done |].
    destruct (Z.ltb_spec 10 (UpdateCapacityRequest.count q)); [done |].
    cbn. unfold ret. intros Heq. simplify_eq. repeat split; (done || lia). }
  assert (forall q,
            (lower (UpdateCapacityRequest.action q) = "enter"%string \/
             lower (UpdateCapacityRequest.action q) = "exit"%string) ->
            1 <= UpdateCapacityRequest.count q <= 10 ->
            UpdateCapacityRequest.validate q =
            inr (UpdateCapacityRequest.make (UpdateCapacityRequest.area_id q)
                   (lower (UpdateCapacityRequest.action q))
                   (UpdateCapacityRequest.count q) (UpdateCapacityRequest.timestamp q)))
    as Hok.
  { intros q Hact Hcount. unfold UpdateCapacityRequest.validate.
    rewrite decide_True by done.
    destruct (Z.ltb_spec (UpdateCapacityRequest.count q) 1); [lia |].
    destruct (Z.ltb_spec 10 (UpdateCapacityRequest.count q)); [lia |]. done. }
  split.
  - split.
    + intros [r' Hr']. by destruct (Hinv r r' Hr') as (? & ? & _).
    + intros [Hact Hcount]. eexists. by apply Hok.
  - intros r' Hr'. destruct (Hinv r r' Hr') as (Hact & Hcount & ->).
    split; [done |]. split.
    + rewrite Hok; cbn; rewrite ?(lower_enter_exit _ Hact); done.
    + intros db now e. unfold main.update_capacity.
      cbn [UpdateCapacityRequest.action UpdateCapacityRequest.area_id].
      rewrite decide_True by done.
      destruct (database.update_capacity db _ _ now) as [db' [e' | [area |]]];
        cbn; intros Heq; simplify_eq; cbn; done.
Qed.

Lemma validated_upper_case_enter :
  let r := UpdateCapacityRequest.make "pool" "ENTER" 10 None in
  UpdateCapacityRequest.validate r =
    inr (UpdateCapacityRequest.make "pool" "enter" 10 None) /\
  UpdateCapacityRequest.validate (UpdateCapacityRequest.make "pool" "enter" 10 None) =
    inr (UpdateCapacityRequest.make "pool" "enter" 10 None).
Proof.
  cbv zeta. split; [reflexivity |].
  apply (validated_request_is_well_formed (UpdateCapacityRequest.make "pool" "ENTER" 10 None)).
  reflexivity.
Defined.

(** ** Entries and exits in sequence *)



(** ** Concurrent invocations, any mix of calls *)

Lemma update_capacity_add_eq (tbl : Table) (a action now : string) (n : Z) :
  let item :=
    dynamodb.add_update_count 1
      (dynamodb.add_count (increment_of action n) now (row_or_new tbl a)) in
  capacity_updater.update_capacity_add a action n now tbl =
  (<[area_key a := item]> tbl, inr item).
Proof. reflexivity. Qed.

Lemma update_capacity_floor_eq (tbl : Table) (a : string) (item : Item.t) :
  capacity_updater.update_capacity_floor a item tbl =
  match Item.current_count item with
  | None => (tbl, inl (KeyError "current_count"))
  | Some c =>
      if c <? 0 then
        (<[area_key a := dynamodb.set_count 0 (row_or_new tbl a)]> tbl,
         inr (dynamodb.set_count 0 (row_or_new tbl a)))
      else (tbl, inr item)
  end.
Proof.
  unfold capacity_updater.update_capacity_floor.
  destruct (Item.current_count item) as [c |]; [| done].
  cbn [getitem ret]. by destruct (c <? 0).
Qed.

Lemma count_or_zero_insert_eq (tbl : Table) (a : string) (i : Item.t) :
  count_or_zero (<[area_key a := i]> tbl) a = default 0 (Item.current_count i).
Proof. unfold count_or_zero, stored_count. by rewrite stored_insert_eq. Qed.

Lemma count_or_zero_insert_ne (tbl : Table) (a b : string) (i : Item.t) :
  a <> b -> count_or_zero (<[area_key a := i]> tbl) b = count_or_zero tbl b.
Proof.
  intros Hne. unfold count_or_zero, stored_count. by rewrite stored_insert_ne.
Qed.

Lemma floor_pending_insert (a : string) (cs : list concurrent.call) (i : nat)
    (c c' : concurrent.call) :
  cs !! i = Some c ->
  (forall item k, c = concurrent.Added a item ->
                  Item.current_count item = Some k -> 0 <= k) ->
  floor_pending a cs -> floor_pending a (<[i := c']> cs).
Proof.
  intros Hi Hc (j & item & k & Hj & Hk & Hneg).
  exists j, item, k. split; [| done].
  rewrite list_lookup_insert_ne; [done |].
  intros <-. rewrite Hi in Hj. simplify_eq. specialize (Hc item k eq_refl Hk). lia.
Qed.

(** A negative stored count always has a corrective write on its way. *)
Lemma step_negative_has_floor_pending (a : string) (i : nat)
    (s s' : concurrent.state) :
  (count_or_zero s.1 a < 0 -> floor_pending a s.2) ->
  concurrent.step i s = Some s' ->
  count_or_zero s'.1 a < 0 -> floor_pending a s'.2.
Proof.
  destruct s as [tbl cs]. cbn [fst snd]. intros Hinv Hstep.
  unfold concurrent.step in Hstep. cbn [fst snd] in Hstep.
  destruct (cs !! i) as [c |] eqn:Hi; [| done].
  pose proof (lookup_lt_Some _ _ _ Hi) as Hlt.
  destruct c as [a' action n now | a' item | r]; cbn [concurrent.step_call] in Hstep.
  - rewrite update_capacity_add_eq in Hstep. cbv zeta in Hstep. simplify_eq.
    cbn [fst snd]. destruct (decide (a' = a)) as [-> | Hne].
    + rewrite count_or_zero_insert_eq. cbn. intros Hneg.
      eexists i, _, _. split; [by apply list_lookup_insert_eq |]. split; [reflexivity |].
      exact Hneg.
    + rewrite count_or_zero_insert_ne by done. intros Hneg.
      apply (floor_pending_insert a cs i _ _ Hi); [done | by apply Hinv].
  - rewrite update_capacity_floor_eq in Hstep.
    destruct (Item.current_count item) as [k |] eqn:Hk.
    + destruct (Z.ltb_spec k 0) as [Hkneg | Hknn]; simplify_eq; cbn [fst snd].
      * destruct (decide (a' = a)) as [-> | Hne].
        -- rewrite count_or_zero_insert_eq. cbn. lia.
        -- rewrite count_or_zero_insert_ne by done. intros Hneg.
           apply (floor_pending_insert a cs i _ _ Hi); [| by apply Hinv].
           intros item' k' Heq. by simplify_eq.
      * intros Hneg. apply (floor_pending_insert a cs i _ _ Hi); [| by apply Hinv].
        intros item' k' Heq Hk'. simplify_eq. lia.
    + simplify_eq. cbn [fst snd]. intros Hneg.
      apply (floor_pending_insert a cs i _ _ Hi); [| by apply Hinv].
      intros item' k' Heq Hk'. simplify_eq.
  - done.
Qed.

Lemma run_negative_has_floor_pending (a : string) (schedule : list nat)
    (s s' : concurrent.state) :
  (count_or_zero s.1 a < 0 -> floor_pending a s.2) ->
  concurrent.run schedule s = Some s' ->
  count_or_zero s'.1 a < 0 -> floor_pending a s'.2.
Proof.
  revert s. induction schedule as [| i schedule IH]; intros s Hinv Hrun.
  - cbn in Hrun. by simplify_eq.
  - cbn [concurrent.run] in Hrun.
    destruct (concurrent.step i s) as [s1 |] eqn:Hstep; [| done].
    apply (IH s1); [| done]. by apply (step_negative_has_floor_pending a i s).
Qed.

Lemma finished_no_floor_pending (a : string) (s : concurrent.state) :
  concurrent.finished s = true -> ~ floor_pending a s.2.
Proof.
  unfold concurrent.finished. intros Hfin (i & item & k & Hi & _).
  rewrite forallb_forall in Hfin.
  specialize (Hfin (concurrent.Added a item)). cbn in Hfin.
  assert (false = true) by (apply Hfin, list_elem_of_In, list_elem_of_lookup; eauto).
  done.
Qed.

(** X12. Whatever calls run together and however their requests
    interleave, once all of them have finished no area that started with a
    count of 0 or more holds a negative count. *)
Theorem finished_runs_are_never_negative (a : string) (schedule : list nat)
    (tbl : Table) (calls : list concurrent.call) (s' : concurrent.state) :
  0 <= count_or_zero tbl a ->
  concurrent.run schedule (tbl, calls) = Some s' ->
  concurrent.finished s' = true ->
  0 <= count_or_zero s'.1 a.
Proof.
  intros Hstart Hrun Hfin.
  destruct (Z.le_gt_cases 0 (count_or_zero s'.1 a)) as [? | Hneg]; [done |].
  exfalso. apply (finished_no_floor_pending a s' Hfin).
  apply (run_negative_has_floor_pending a schedule (tbl, calls) s'); [| done | done].
  cbn. lia.
Qed.

Lemma racing_exits_end_at_zero :
  let start : concurrent.state :=
    (sample_table 1,
     [concurrent.Start "weight-room" "exit" 5 later;
      concurrent.Start "weight-room" "exit" 5 later;
      concurrent.Start "weight-room" "enter" 2 later]) in
  exists s',
    concurrent.run [0; 1; 2; 1; 0; 2]%nat start = Some s' /\
    concurrent.finished s' = true /\
    0 <= count_or_zero s'.1 "weight-room".
Proof.
  cbv zeta.
  assert (final_count "weight-room" [0; 1; 2; 1; 0; 2]%nat
            (sample_table 1,
             [concurrent.Start "weight-room" "exit" 5 later;
              concurrent.Start "weight-room" "exit" 5 later;
              concurrent.Start "weight-room" "enter" 2 later]) = Some 0) as Hfinal
    by (vm_compute; reflexivity).
  unfold final_count in Hfinal.
  destruct (concurrent.run _ _) as [s' |] eqn:Hrun; [| done].
  destruct (concurrent.finished s') eqn:Hfin; [| done].
  exists s'. split; [reflexivity |]. split; [exact Hfin |].
  apply (finished_runs_are_never_negative "weight-room" [0; 1; 2; 1; 0; 2]%nat
           (sample_table 1) _ s' ltac:(vm_compute; discriminate) Hrun Hfin).
Defined.

(** ** Concurrent entries *)



Lemma to_add_nonneg (a : string) (cs : list concurrent.call) :
  Forall (entry_call a) cs -> 0 <= to_add cs.
Proof.
  induction 1 as [| c cs Hc _ IH]; cbn; [lia |]. fold (to_add cs).
  destruct c; cbn in Hc; lia.
Qed.





(** ** The Lambda handler *)

Lemma lower_ascii_idempotent (c : ascii) : lower_ascii (lower_ascii c) = lower_ascii c.
Proof. destruct c as [[] [] [] [] [] [] [] []]; reflexivity. Qed.

Lemma lower_idempotent (s : string) : lower (lower s) = lower s.
Proof.
  induction s as [| c s IH]; cbn; [done |]. by rewrite lower_ascii_idempotent, IH.
Qed.

(** A body that passes the checks: the write is made, and the answer is
    the error response for the [TypeError] of [json.dumps]. *)
Lemma lambda_handler_accepted (event : handler.Body) (now : string) (tbl : Table)
    (id : string) :
  acceptable event ->
  handler.area_id event = Some id ->
  handler.lambda_handler event now tbl =
  ((capacity_updater.update_capacity id
      (lower (default "enter"%string (handler.action event)))
      (default 1 (handler.count event)) now tbl).1,
   handler.create_error_response 500
     (main.Failed "Internal server error: "
        (Exception "Object of type Decimal is not JSON serializable")) now).
Proof.
  intros ((id' & Hid' & Hne) & Hact & Hcount) Hid. simplify_eq.
  unfold handler.lambda_handler. rewrite Hid'.
  rewrite decide_False by done. rewrite decide_True by done.
  destruct (Z.ltb_spec (default 1 (handler.count event)) 1); [lia |].
  destruct (Z.ltb_spec 10 (default 1 (handler.count event))); [lia |]. cbn [orb].
  destruct (lambda_update_capacity_spec tbl id'
              (lower (default "enter"%string (handler.action event))) now
              (default 1 (handler.count event)))
    as (tbl' & item & Hrun & _ & Hc & _).
  rewrite Hrun, Hc. reflexivity.
Qed.

(** X15. The handler answers 400 exactly when the area id is missing or
    empty, the lowered action is neither "enter" nor "exit", or the count
    is outside 1..10; a request it refuses leaves the table as it was. *)
Theorem handler_refusals (event : handler.Body) (now : string) (tbl : Table) :
  (handler.statusCode (handler.lambda_handler event now tbl).2 = 400 <->
   ~ acceptable event) /\
  (handler.statusCode (handler.lambda_handler event now tbl).2 = 400 ->
   (handler.lambda_handler event now tbl).1 = tbl).
Proof.
  destruct (handler.area_id event) as [id |] eqn:Hid'.
  2: { unfold acceptable, handler.lambda_handler. rewrite Hid'.
       split; [| done]. split; [| done]. intros _ [(id & Hid & _) _]. done. }
  destruct (decide (id = ""%string)) as [-> | Hid].
  { unfold acceptable, handler.lambda_handler. rewrite Hid'. cbn.
    split; [| done]. split; [| done]. intros _ [(id & Heq & Hne) _]. by simplify_eq. }
  destruct (decide (lower (default "enter"%string (handler.action event)) = "enter"%string \/
                    lower (default "enter"%string (handler.action event)) = "exit"%string))
    as [Hact | Hact].
  2: { unfold acceptable, handler.lambda_handler. rewrite Hid'.
       rewrite decide_False by done. rewrite (decide_False _ _ Hact).
       split; [| done]. split; [| done]. intros _ (_ & Hact' & _). done. }
  destruct (Z.ltb_spec (default 1 (handler.count event)) 1) as [Hlo | Hlo].
  { unfold acceptable, handler.lambda_handler. rewrite Hid'.
    rewrite decide_False by done. rewrite (decide_True _ _ Hact).
    destruct (Z.ltb_spec (default 1 (handler.count event)) 1); [| lia]. cbn [orb].
    split; [| done]. split; [| done]. intros _ (_ & _ & Hc). lia. }
  destruct (Z.ltb_spec 10 (default 1 (handler.count event))) as [Hhi | Hhi].
  { unfold acceptable, handler.lambda_handler. rewrite Hid'.
    rewrite decide_False by done. rewrite (decide_True _ _ Hact).
    destruct (Z.ltb_spec (default 1 (handler.count event)) 1); [lia |].
    destruct (Z.ltb_spec 10 (default 1 (handler.count event))); [| lia]. cbn [orb].
    split; [| done]. split; [| done]. intros _ (_ & _ & Hc). lia. }
  assert (acceptable event) as Hok.
  { split; [by exists id |]. split; [done | lia]. }
  rewrite (lambda_handler_accepted event now tbl id Hok Hid'). cbn [snd fst].
  split; [| done]. split; [done |]. intros Hno. by destruct Hno.
Qed.

Lemma handler_refuses_count_eleven :
  let event :=
    {| handler.area_id := Some "pool"%string; handler.action := Some "exit"%string;
       handler.count := Some 11; handler.timestamp := None |} in
  (handler.lambda_handler event later (sample_table 45)).1 = sample_table 45.
Proof.
  cbv zeta.
  apply (handler_refusals
           {| handler.area_id := Some "pool"%string; handler.action := Some "exit"%string;
              handler.count := Some 11; handler.timestamp := None |} later (sample_table 45)).
  reflexivity.
Defined.

(** X16. The handler never answers 200.  A request that passes its checks
    is written to the table: the stored count becomes the old count plus
    (entry) or minus (exit) the request's count, floored at 0.  The
    response body then holds the [Decimal] that came back as
    [current_count], [json.dumps] raises [TypeError] inside the handler's
    [try], and the answer is 500. *)
Theorem handler_answers_500_after_write (event : handler.Body) (now : string)
    (tbl : Table) :
  handler.statusCode (handler.lambda_handler event now tbl).2 <> 200 /\
  (forall id,
     acceptable event ->
     handler.area_id event = Some id ->
     let action := lower (default "enter"%string (handler.action event)) in
     let count := default 1 (handler.count event) in
     stored_count (handler.lambda_handler event now tbl).1 id =
       Some (Z.max 0 (count_or_zero tbl id + increment_of action count)) /\
     (handler.lambda_handler event now tbl).2 =
       handler.create_error_response 500
         (main.Failed "Internal server error: "
            (Exception "Object of type Decimal is not JSON serializable")) now).
Proof.
  split.
  - unfold handler.lambda_handler.
    destruct (handler.area_id event) as [id |]; [| done].
    destruct (decide (id = ""%string)); [done |].
    destruct (decide _); [| done].
    destruct (_ || _); [done |].
    destruct (capacity_updater.update_capacity _ _ _ _ _) as [tbl' [e | item]]; [done |].
    destruct (getitem "current_count" (Item.current_count item)) as [e | c]; done.
  - intros id Hok Hid. cbv zeta.
    rewrite (lambda_handler_accepted event now tbl id Hok Hid). cbn [fst snd].
    split; [| done].
    destruct (lambda_update_capacity_spec tbl id
                (lower (default "enter"%string (handler.action event))) now
                (default 1 (handler.count event)))
      as (tbl' & item & Hrun & Hst & Hc & _).
    rewrite Hrun. cbn [fst]. unfold stored_count. by rewrite Hst.
Qed.

Lemma handler_default_entry :
  let event :=
    {| handler.area_id := Some "pool"%string; handler.action := None;
       handler.count := None; handler.timestamp := Some "client"%string |} in
  stored_count (handler.lambda_handler event later (sample_table 45)).1 "pool" = Some 13 /\
  handler.statusCode (handler.lambda_handler event later (sample_table 45)).2 = 500.
Proof.
  cbv zeta.
  destruct (handler_answers_500_after_write
              {| handler.area_id := Some "pool"%string; handler.action := None;
                 handler.count := None; handler.timestamp := Some "client"%string |}
              later (sample_table 45)) as [_ Hwrite].
  destruct (Hwrite "pool"%string) as [Hstored Hanswer].
  - split; [by exists "pool"%string |]. split; [by left | cbn; lia].
  - reflexivity.
  - split; [exact Hstored |]. by rewrite Hanswer.
Defined.

(** X17. The handler reads the action without regard to case, a missing
    action as an entry and a missing count as 1: it answers and writes the
    same for a body and for the body with these filled in. *)
Theorem handler_normalises (event : handler.Body) (now : string) (tbl : Table) :
  handler.lambda_handler event now tbl =
  handler.lambda_handler (normalised event) now tbl.
Proof.
  unfold handler.lambda_handler, normalised.
  cbn [handler.area_id handler.action handler.count handler.timestamp].
  change (default "enter"%string (Some ?x)) with x.
  change (default 1 (Some ?x)) with x.
  by rewrite lower_idempotent.
Qed.

(** ** Seeding *)

(** A turn of the loop that is not left by an exception writes one row. *)
Lemma seed_area_table (ts : string) (f : init_database.Faults)
    (st st' : init_database.Seeding) (cfg : init_database.AreaConfig) :
  init_database.seed_area ts f st cfg = inr st' ->
  init_database.table st' =
  <[area_key (init_database.area_id cfg) :=
      seeded_row ts cfg f (init_database.table st)]> (init_database.table st).
Proof.
  unfold init_database.seed_area, init_database.create_new_area, seeded_row,
    swallowed, stored, dynamodb.get_item, dynamodb.update_item, dynamodb.put_item,
    new_row, ret, raise.
  destruct (init_database.get_item_fault f) as [[msg | e] |];
    destruct (init_database.update_item_fault f) as [[msg' | e'] |];
    destruct (init_database.put_item_fault f) as [pf |];
    destruct (init_database.table st !! area_key (init_database.area_id cfg));
    intros Heq; simplify_eq; cbn -[area_key]; try done;
    by rewrite <- surjective_pairing.
Qed.

Lemma seed_area_counters (ts : string) (f : init_database.Faults)
    (st st' : init_database.Seeding) (cfg : init_database.AreaConfig) :
  init_database.seed_area ts f st cfg = inr st' ->
  (init_database.created_count st' + init_database.updated_count st' =
   S (init_database.created_count st + init_database.updated_count st))%nat.
Proof.
  unfold init_database.seed_area, init_database.create_new_area, ret, raise.
  destruct (init_database.get_item_fault f) as [[msg | e] |];
    destruct (init_database.update_item_fault f) as [[msg' | e'] |];
    destruct (init_database.put_item_fault f) as [pf |];
    destruct (dynamodb.get_item (area_key (init_database.area_id cfg))
                (init_database.table st));
    intros Heq; simplify_eq; cbn; lia.
Qed.

Lemma seed_list_cons (ts : string) (faults : string -> init_database.Faults)
    (cfg : init_database.AreaConfig) (cfgs : list init_database.AreaConfig)
    (st : init_database.Seeding) :
  init_database.seed_list ts faults (cfg :: cfgs) st =
  match init_database.seed_area ts (faults (init_database.area_id cfg)) st cfg with
  | inl e => (st, raise e)
  | inr st' => init_database.seed_list ts faults cfgs st'
  end.
Proof. reflexivity. Qed.

(** Rows whose area is not among the seeds are left alone. *)
Lemma seed_list_other (ts : string) (faults : string -> init_database.Faults)
    (cfgs : list init_database.AreaConfig) (st : init_database.Seeding)
    (key : string * string) :
  key ∉ (fun cfg => area_key (init_database.area_id cfg)) <$> cfgs ->
  init_database.table (init_database.seed_list ts faults cfgs st).1 !! key =
  init_database.table st !! key.
Proof.
  revert st. induction cfgs as [| cfg cfgs IH]; intros st Hnot; [done |].
  rewrite fmap_cons in Hnot. apply not_elem_of_cons in Hnot as [Hne Hnot].
  rewrite seed_list_cons.
  destruct (init_database.seed_area _ _ st cfg) as [e | st'] eqn:Hstep; [done |].
  rewrite IH by done.
  by rewrite (seed_area_table _ _ _ _ _ Hstep), lookup_insert_ne.
Qed.

(** A row that is there stays there with its count, stamps and counter,
    unless a [ClientError] is passed over in the turn of its area. *)
Lemma seed_list_keeps (ts : string) (faults : string -> init_database.Faults)
    (cfgs : list init_database.AreaConfig) (st : init_database.Seeding)
    (key : string * string) (row : Item.t) :
  init_database.table st !! key = Some row ->
  (forall cfg, cfg ∈ cfgs -> key = area_key (init_database.area_id cfg) ->
     swallowed (faults (init_database.area_id cfg)) = false) ->
  exists row',
    init_database.table (init_database.seed_list ts faults cfgs st).1 !! key =
      Some row' /\
    Item.PK row' = Item.PK row /\ Item.SK row' = Item.SK row /\
    Item.area_id row' = Item.area_id row /\
    Item.current_count row' = Item.current_count row /\
    Item.is_open row' = Item.is_open row /\
    Item.last_updated row' = Item.last_updated row /\
    Item.created_at row' = Item.created_at row /\
    Item.update_count row' = Item.update_count row.
Proof.
  revert st row. induction cfgs as [| cfg cfgs IH]; intros st row Hrow Hfaults.
  - exists row. by repeat split.
  - rewrite seed_list_cons.
    destruct (init_database.seed_area _ _ st cfg) as [e | st'] eqn:Hstep.
    { exists row. by repeat split. }
    apply seed_area_table in Hstep.
    assert (forall cfg', cfg' ∈ cfgs ->
              key = area_key (init_database.area_id cfg') ->
              swallowed (faults (init_database.area_id cfg')) = false) as Hrest.
    { intros cfg' Hin. apply Hfaults. by apply list_elem_of_further. }
    destruct (decide (key = area_key (init_database.area_id cfg))) as [-> | Hne].
    + destruct (IH st'
                  (init_database.set_capacity_name (init_database.max_capacity cfg)
                     (init_database.name cfg) row))
        as (row' & Hrow' & H); [| done |].
      { rewrite Hstep, lookup_insert_eq. unfold seeded_row, stored.
        rewrite Hrow. by rewrite (Hfaults cfg (list_elem_of_here _ _) eq_refl). }
      exists row'. split; [done |]. exact H.
    + apply IH; [| done]. rewrite Hstep, lookup_insert_ne; done.
Qed.

Lemma seeded_row_configured (ts : string) (cfg : init_database.AreaConfig)
    (f : init_database.Faults) (tbl : Table) :
  configured cfg (seeded_row ts cfg f tbl).
Proof.
  unfold seeded_row, configured.
  destruct (stored _ _); [destruct (swallowed f) |]; done.
Qed.

Lemma seeded_row_new (ts : string) (cfg : init_database.AreaConfig)
    (f : init_database.Faults) (tbl : Table) :
  stored tbl (init_database.area_id cfg) = None \/ swallowed f = true ->
  seeded_row ts cfg f tbl = new_row ts cfg.
Proof.
  unfold seeded_row. intros [-> | ->]; [done |]. by destruct (stored _ _).
Qed.

(** In a run that ends, the turn of an area decides its name and
    capacity; the row is the new one when there was none, and when a
    [ClientError] was passed over. *)
Lemma seed_list_configured (ts : string) (faults : string -> init_database.Faults)
    (cfgs : list init_database.AreaConfig) (st : init_database.Seeding)
    (cfg : init_database.AreaConfig) :
  NoDup (init_database.area_id <$> cfgs) ->
  cfg ∈ cfgs ->
  (init_database.seed_list ts faults cfgs st).2 = ret tt ->
  exists row,
    stored (init_database.table (init_database.seed_list ts faults cfgs st).1)
      (init_database.area_id cfg) = Some row /\
    configured cfg row /\
    (stored (init_database.table st) (init_database.area_id cfg) = None \/
     swallowed (faults (init_database.area_id cfg)) = true ->
     row = new_row ts cfg).
Proof.
  revert st. induction cfgs as [| c cfgs IH]; intros st Hnd Hin Hend;
    [by apply elem_of_nil in Hin |].
  rewrite fmap_cons in Hnd. apply NoDup_cons in Hnd as [Hfresh Hnd].
  rewrite seed_list_cons in Hend |- *.
  destruct (init_database.seed_area _ _ st c) as [e | st'] eqn:Hstep; [done |].
  apply seed_area_table in Hstep.
  apply elem_of_cons in Hin as [-> | Hin].
  - assert (area_key (init_database.area_id c) ∉
              (fun cfg => area_key (init_database.area_id cfg)) <$> cfgs) as Hkey.
    { intros Hk. apply Hfresh. apply list_elem_of_fmap in Hk as (c' & Heq & Hc').
      apply area_key_inj in Heq. rewrite Heq. by apply list_elem_of_fmap_2. }
    unfold stored at 1. rewrite (seed_list_other ts faults cfgs _ _ Hkey).
    rewrite Hstep, lookup_insert_eq. eexists. split; [reflexivity |].
    split; [apply seeded_row_configured | apply seeded_row_new].
  - destruct (IH st' Hnd Hin Hend) as (row & Hrow & Hconf & Hnew).
    exists row. split; [done |]. split; [done |]. intros [Hnone | Hsw]; apply Hnew;
      [left | by right].
    rewrite Hstep. rewrite stored_insert_ne; [done |].
    intros Heq. apply Hfresh. rewrite Heq. by apply list_elem_of_fmap_2.
Qed.

Lemma initial_areas_nodup :
  NoDup (init_database.area_id <$> init_database.INITIAL_AREAS).
Proof. compute_done. Qed.

(** X18. Seeding keeps every row that is already there, with its count,
    its stamps and its update counter, in every turn but one: when the
    [get_item] or the [update_item] for a seeded area raises [ClientError],
    the exception is passed over, the row is put anew, and a run that ends
    leaves the area with count 0 ("keeping current count" does not hold
    there). *)
Theorem seeding_keeps_counts (faults : string -> init_database.Faults)
    (now : string) (tbl : Table) (key : string * string) (row : Item.t) :
  tbl !! key = Some row ->
  ((forall cfg, cfg ∈ init_database.INITIAL_AREAS ->
      key = area_key (init_database.area_id cfg) ->
      swallowed (faults (init_database.area_id cfg)) = false) ->
   exists row',
     init_database.table (init_database.seed_areas faults now tbl).1 !! key =
       Some row' /\
     Item.current_count row' = Item.current_count row /\
     Item.area_id row' = Item.area_id row /\
     Item.is_open row' = Item.is_open row /\
     Item.last_updated row' = Item.last_updated row /\
     Item.update_count row' = Item.update_count row) /\
  (forall cfg, cfg ∈ init_database.INITIAL_AREAS ->
     key = area_key (init_database.area_id cfg) ->
     swallowed (faults (init_database.area_id cfg)) = true ->
     (init_database.seed_areas faults now tbl).2 = ret tt ->
     init_database.table (init_database.seed_areas faults now tbl).1 !! key =
       Some (new_row (now +:+ "Z") cfg)).
Proof.
  intros Hrow. unfold init_database.seed_areas. split.
  - intros Hfaults.
    destruct (seed_list_keeps (now +:+ "Z") faults init_database.INITIAL_AREAS
                {| init_database.table := tbl; init_database.created_count := 0;
                   init_database.updated_count := 0 |} key row Hrow Hfaults)
      as (row' & Hrow' & _ & _ & Hid & Hc & Ho & Hl & _ & Hu).
    by exists row'.
  - intros cfg Hin -> Hsw Hend.
    destruct (seed_list_configured (now +:+ "Z") faults init_database.INITIAL_AREAS
                {| init_database.table := tbl; init_database.created_count := 0;
                   init_database.updated_count := 0 |} cfg initial_areas_nodup Hin Hend)
      as (row' & Hrow' & _ & Hnew).
    unfold stored in Hrow'. rewrite Hrow'. f_equal. apply Hnew. by right.
Qed.

Lemma seeding_keeps_weight_room_count :
  stored_count
    (init_database.table (init_database.seed_areas all_answer later (sample_table 45)).1)
    "weight-room" = Some 45 /\
  stored_count
    (init_database.table
       (init_database.seed_areas weight_room_get_fails later (sample_table 45)).1)
    "weight-room" = Some 0.
Proof.
  split.
  - destruct (seeding_keeps_counts all_answer later (sample_table 45)
                (area_key "weight-room")
                (sample_row "weight-room" "Weight Room" 45 100) eq_refl)
      as [Hkeep _].
    destruct Hkeep as (row' & Hrow' & Hc & _); [done |].
    unfold stored_count, stored. rewrite Hrow'. cbn. by rewrite Hc.
  - destruct (seeding_keeps_counts weight_room_get_fails later (sample_table 45)
                (area_key "weight-room")
                (sample_row "weight-room" "Weight Room" 45 100) eq_refl)
      as [_ Hlose].
    unfold stored_count, stored.
    rewrite (Hlose {| init_database.area_id := "weight-room";
                      init_database.name := "Weight Room";
                      init_database.max_capacity := 100 |});
      [done | apply list_elem_of_here | done | done | vm_compute; reflexivity].
Defined.

(** The loop comes to its end when no request raises anything but a
    [ClientError] of [get_item] or [update_item]. *)
Lemma seed_list_ends (ts : string) (faults : string -> init_database.Faults)
    (cfgs : list init_database.AreaConfig) (st : init_database.Seeding) :
  (forall cfg, cfg ∈ cfgs -> caught (faults (init_database.area_id cfg))) ->
  (init_database.seed_list ts faults cfgs st).2 = ret tt.
Proof.
  revert st. induction cfgs as [| cfg cfgs IH]; intros st Hall; [done |].
  rewrite seed_list_cons.
  destruct (Hall cfg (list_elem_of_here _ _)) as (Hput & Hget & Hupd).
  assert (exists st', init_database.seed_area ts (faults (init_database.area_id cfg))
                        st cfg = inr st') as [st' ->].
  { unfold init_database.seed_area, init_database.create_new_area. rewrite Hput.
    destruct (init_database.get_item_fault _) as [[msg | e] |];
      [by eexists | by destruct (Hget e) |].
    destruct (dynamodb.get_item _ _); [| by eexists].
    destruct (init_database.update_item_fault _) as [[msg | e] |];
      [by eexists | by destruct (Hupd e) | by eexists]. }
  apply IH. intros cfg' Hin. apply Hall. by apply list_elem_of_further.
Qed.

Lemma seeded_initial_area (faults : string -> init_database.Faults)
    (now : string) (tbl : Table) (cfg : init_database.AreaConfig) :
  (init_database.seed_areas faults now tbl).2 = ret tt ->
  cfg ∈ init_database.INITIAL_AREAS ->
  exists row,
    stored (init_database.table (init_database.seed_areas faults now tbl).1)
      (init_database.area_id cfg) = Some row /\
    configured cfg row /\
    (stored tbl (init_database.area_id cfg) = None ->
     Item.current_count row = Some 0 /\ Item.is_open row = Some true /\
     Item.area_id row = Some (init_database.area_id cfg)).
Proof.
  unfold init_database.seed_areas. intros Hend Hin.
  destruct (seed_list_configured (now +:+ "Z") faults init_database.INITIAL_AREAS
              {| init_database.table := tbl; init_database.created_count := 0;
                 init_database.updated_count := 0 |} cfg initial_areas_nodup Hin Hend)
    as (row & Hrow & Hconf & Hnew).
  exists row. split; [done |]. split; [done |].
  intros Hnone. rewrite (Hnew (or_introl Hnone)). done.
Qed.

(** X19. A seeding in which no request raises anything but a
    [ClientError] of [get_item] or [update_item] comes to its end.  After
    a seeding that ends, whatever its requests ran into, each of the eight
    initial areas has a row with the configured name and capacity; an area
    that had none has count 0, is open and carries its own id. *)
Theorem seeding_registers_initial_areas (faults : string -> init_database.Faults)
    (now : string) (tbl : Table) :
  ((forall cfg, cfg ∈ init_database.INITIAL_AREAS ->
      caught (faults (init_database.area_id cfg))) ->
   (init_database.seed_areas faults now tbl).2 = ret tt) /\
  ((init_database.seed_areas faults now tbl).2 = ret tt ->
   forall cfg, cfg ∈ init_database.INITIAL_AREAS ->
   exists row,
     stored (init_database.table (init_database.seed_areas faults now tbl).1)
       (init_database.area_id cfg) = Some row /\
     configured cfg row /\
     (stored tbl (init_database.area_id cfg) = None ->
      Item.current_count row = Some 0 /\ Item.is_open row = Some true /\
      Item.area_id row = Some (init_database.area_id cfg))).
Proof.
  split.
  - unfold init_database.seed_areas. apply seed_list_ends.
  - intros Hend cfg. by apply seeded_initial_area.
Qed.

Lemma seeding_registers_climbing :
  exists row,
    stored
      (init_database.table (init_database.seed_areas all_answer later (sample_table 45)).1)
      "climbing" = Some row /\
    Item.max_capacity row = Some 15 /\ Item.current_count row = Some 0.
Proof.
  destruct (seeding_registers_initial_areas all_answer later (sample_table 45))
    as [Hends Hrows].
  assert ((init_database.seed_areas all_answer later (sample_table 45)).2 = ret tt)
    as Hend by (apply Hends; intros cfg _; by repeat split).
  destruct (Hrows Hend
              {| init_database.area_id := "climbing";
                 init_database.name := "Climbing Wall";
                 init_database.max_capacity := 15 |})
    as (row & Hrow & [_ Hcap] & Hnew).
  - unfold init_database.INITIAL_AREAS. do 6 apply list_elem_of_further. apply list_elem_of_here.
  - exists row. split; [exact Hrow |]. split; [exact Hcap |].
    by destruct (Hnew eq_refl) as (Hc & _).
Defined.

(** ** Seeding again, and the check after it *)

Lemma set_capacity_name_configured (cfg : init_database.AreaConfig) (row : Item.t) :
  configured cfg row ->
  init_database.set_capacity_name (init_database.max_capacity cfg)
    (init_database.name cfg) row = row.
Proof.
  intros [Hnm Hcap]. destruct row. cbn in *. by subst.
Qed.

Lemma seed_list_counters (ts : string) (faults : string -> init_database.Faults)
    (cfgs : list init_database.AreaConfig) (st : init_database.Seeding) :
  (init_database.seed_list ts faults cfgs st).2 = ret tt ->
  (init_database.created_count (init_database.seed_list ts faults cfgs st).1 +
   init_database.updated_count (init_database.seed_list ts faults cfgs st).1 =
   init_database.created_count st + init_database.updated_count st + length cfgs)%nat.
Proof.
  revert st. induction cfgs as [| cfg cfgs IH]; intros st Hend; [cbn; lia |].
  rewrite seed_list_cons in Hend |- *.
  destruct (init_database.seed_area _ _ st cfg) as [e | st'] eqn:Hstep; [done |].
  rewrite (IH st' Hend). apply seed_area_counters in Hstep. cbn [length]. lia.
Qed.

(** On a table where every seed already has its configured row, a loop
    whose [get_item] and [update_item] requests answer changes no row and
    counts every seed as updated; [put_item] is not called. *)
Lemma seed_list_configured_fixpoint (ts : string)
    (faults : string -> init_database.Faults)
    (cfgs : list init_database.AreaConfig) (st : init_database.Seeding) :
  (forall cfg, cfg ∈ cfgs ->
     init_database.get_item_fault (faults (init_database.area_id cfg)) = None /\
     init_database.update_item_fault (faults (init_database.area_id cfg)) = None /\
     exists row, stored (init_database.table st) (init_database.area_id cfg) = Some row /\
                 configured cfg row) ->
  (init_database.seed_list ts faults cfgs st).2 = ret tt /\
  init_database.table (init_database.seed_list ts faults cfgs st).1 =
    init_database.table st /\
  init_database.created_count (init_database.seed_list ts faults cfgs st).1 =
    init_database.created_count st /\
  init_database.updated_count (init_database.seed_list ts faults cfgs st).1 =
    (init_database.updated_count st + length cfgs)%nat.
Proof.
  revert st. induction cfgs as [| cfg cfgs IH]; intros st Hall.
  - cbn. repeat split. lia.
  - destruct (Hall cfg) as (Hget & Hupd & row & Hrow & Hconf); [apply list_elem_of_here |].
    assert (init_database.seed_area ts (faults (init_database.area_id cfg)) st cfg =
            inr {| init_database.table := init_database.table st;
                   init_database.created_count := init_database.created_count st;
                   init_database.updated_count := S (init_database.updated_count st) |})
      as Hstep.
    { unfold init_database.seed_area, dynamodb.get_item, dynamodb.update_item.
      rewrite Hget, Hupd. unfold stored in Hrow. rewrite Hrow. cbn -[area_key].
      rewrite set_capacity_name_configured by done. by rewrite insert_id. }
    rewrite seed_list_cons, Hstep.
    destruct (IH {| init_database.table := init_database.table st;
                    init_database.created_count := init_database.created_count st;
                    init_database.updated_count := S (init_database.updated_count st) |})
      as (Hend & Ht & Hc & Hu).
    { intros cfg' Hin. apply Hall. by apply list_elem_of_further. }
    cbn in *. rewrite Hend, Ht, Hc, Hu. repeat split. lia.
Qed.

(** X20. A seeding that ends counts every initial area once, as created
    or as updated.  A second seeding whose [get_item] and [update_item]
    requests answer ends too, changes no row, creates nothing and counts
    all eight as updated. *)
Theorem seeding_twice_changes_nothing (faults faults' : string -> init_database.Faults)
    (now now' : string) (tbl : Table) :
  let first := init_database.seed_areas faults now tbl in
  let second :=
    init_database.seed_areas faults' now' (init_database.table first.1) in
  first.2 = ret tt ->
  (forall cfg, cfg ∈ init_database.INITIAL_AREAS ->
     init_database.get_item_fault (faults' (init_database.area_id cfg)) = None /\
     init_database.update_item_fault (faults' (init_database.area_id cfg)) = None) ->
  (init_database.created_count first.1 + init_database.updated_count first.1 = 8)%nat /\
  second.2 = ret tt /\
  init_database.table second.1 = init_database.table first.1 /\
  init_database.created_count second.1 = 0%nat /\
  init_database.updated_count second.1 = 8%nat.
Proof.
  cbv zeta. intros Hend Hanswer. split.
  - unfold init_database.seed_areas in *. by rewrite seed_list_counters.
  - pose proof (seeded_initial_area faults now tbl) as Hreg.
    specialize (fun cfg => Hreg cfg Hend). clear Hend.
    generalize dependent (init_database.table (init_database.seed_areas faults now tbl).1).
    intros seeded Hreg. unfold init_database.seed_areas.
    destruct (seed_list_configured_fixpoint (now' +:+ "Z") faults'
                init_database.INITIAL_AREAS
                {| init_database.table := seeded;
                   init_database.created_count := 0;
                   init_database.updated_count := 0 |}) as (Hend' & Ht & Hc & Hu).
    + intros cfg Hin. cbn [init_database.table].
      destruct (Hanswer cfg Hin) as [Hget Hupd].
      destruct (Hreg cfg Hin) as (row & Hrow & Hconf & _).
      split; [done |]. split; [done |]. by exists row.
    + rewrite Hend', Ht, Hc, Hu. done.
Qed.

Lemma seeding_sample_twice :
  let first := init_database.seed_areas weight_room_get_fails later (sample_table 45) in
  let second :=
    init_database.seed_areas all_answer later (init_database.table first.1) in
  (init_database.created_count first.1 + init_database.updated_count first.1 = 8)%nat /\
  init_database.table second.1 = init_database.table first.1 /\
  init_database.created_count second.1 = 0%nat.
Proof.
  cbv zeta.
  destruct (seeding_twice_changes_nothing weight_room_get_fails all_answer later later
              (sample_table 45)) as (Hsum & _ & Htable & Hcreated & _).
  - vm_compute. reflexivity.
  - intros cfg _. split; reflexivity.
  - exact (conj Hsum (conj Htable Hcreated)).
Defined.

(** ** The scan after seeding *)

Lemma scan_insert_fresh (keep : Item.t -> bool) (tbl : Table)
    (key : string * string) (row : Item.t) :
  tbl !! key = None ->
  dynamodb.scan keep (<[key := row]> tbl) ≡ₚ
  (if keep row then [row] else []) ++ dynamodb.scan keep tbl.
Proof.
  intros Hnone. unfold dynamodb.scan.
  rewrite (map_to_list_insert tbl key row Hnone). cbn [fmap list_fmap snd].
  rewrite filter_cons.
  destruct (keep row); [rewrite decide_True by done | rewrite decide_False by done];
    done.
Qed.

Lemma scan_length_keys (keep : Item.t -> bool) (keys : list (string * string))
    (tbl : Table) :
  NoDup keys ->
  (forall key, key ∈ keys -> exists row, tbl !! key = Some row /\ keep row = true) ->
  (length keys <= length (dynamodb.scan keep tbl))%nat.
Proof.
  revert tbl. induction keys as [| key keys IH]; intros tbl Hnd Hall; [cbn; lia |].
  apply NoDup_cons in Hnd as [Hfresh Hnd].
  destruct (Hall key) as (row & Hrow & Hkeep); [apply list_elem_of_here |].
  rewrite <- (insert_id tbl key row Hrow), <- insert_delete_eq.
  rewrite scan_insert_fresh by apply lookup_delete_eq.
  rewrite Hkeep. cbn [app length]. apply le_n_S, IH; [done |].
  intros key' Hin. destruct (Hall key') as (row' & Hrow' & Hkeep');
    [by apply list_elem_of_further |].
  exists row'. split; [| done]. rewrite lookup_delete_ne; [done |].
  intros ->. done.
Qed.

(** The rows of a scan are rows of the table that pass the filter. *)
Lemma scan_elem (keep : Item.t -> bool) (tbl : Table) (row : Item.t) :
  row ∈ dynamodb.scan keep tbl <->
  keep row = true /\ exists key, tbl !! key = Some row.
Proof.
  unfold dynamodb.scan. rewrite list_elem_of_filter, list_elem_of_fmap.
  split.
  - intros [Hkeep ([key row'] & -> & Hin)]. apply elem_of_map_to_list in Hin.
    split; [done |]. by exists key.
  - intros [Hkeep [key Hrow]]. split; [done |]. exists (key, row).
    split; [done |]. by apply elem_of_map_to_list.
Qed.

Lemma keyed_seed_list (ts : string) (faults : string -> init_database.Faults)
    (cfgs : list init_database.AreaConfig) (st : init_database.Seeding) :
  keyed (init_database.table st) ->
  keyed (init_database.table (init_database.seed_list ts faults cfgs st).1).
Proof.
  revert st. induction cfgs as [| cfg cfgs IH]; intros st Hk; [done |].
  rewrite seed_list_cons.
  destruct (init_database.seed_area _ _ st cfg) as [e | st'] eqn:Hstep; [done |].
  apply IH. rewrite (seed_area_table _ _ _ _ _ Hstep).
  apply keyed_insert; [done |]. unfold seeded_row, stored.
  destruct (init_database.table st !! area_key (init_database.area_id cfg)) as [row |]
    eqn:Hrow; [| done].
  destruct (swallowed _); [done |]. cbn. by apply Hk.
Qed.

Lemma all_printable_seed_list (ts : string) (faults : string -> init_database.Faults)
    (cfgs : list init_database.AreaConfig) (st : init_database.Seeding) :
  all_printable (init_database.table st) ->
  all_printable (init_database.table (init_database.seed_list ts faults cfgs st).1).
Proof.
  revert st. induction cfgs as [| cfg cfgs IH]; intros st Hp; [done |].
  rewrite seed_list_cons.
  destruct (init_database.seed_area _ _ st cfg) as [e | st'] eqn:Hstep; [done |].
  apply IH. rewrite (seed_area_table _ _ _ _ _ Hstep).
  intros key row Hrow Hsk.
  destruct (decide (area_key (init_database.area_id cfg) = key)) as [<- | Hne].
  - rewrite lookup_insert_eq in Hrow. simplify_eq.
    unfold seeded_row, stored in *.
    destruct (init_database.table st !! area_key (init_database.area_id cfg))
      as [old |] eqn:Hold; [| by repeat split].
    destruct (swallowed _); [by repeat split |].
    destruct (Hp _ _ Hold Hsk) as (_ & Hc & _). by repeat split.
  - rewrite lookup_insert_ne in Hrow by done. by apply (Hp key).
Qed.

Lemma print_area_cases (item : Item.t) :
  (printable item /\ init_database.print_area item = ret tt) \/
  (~ printable item /\ exists k, init_database.print_area item = raise (KeyError k)).
Proof.
  unfold printable, init_database.print_area.
  destruct (Item.name item) as [nm |]; cbn.
  2: { right. split; [intros ([? ?] & _); done | by eexists]. }
  destruct (Item.current_count item) as [c |]; cbn.
  2: { right. split; [intros (_ & [? ?] & _); done | by eexists]. }
  destruct (Item.max_capacity item) as [m |]; cbn.
  2: { right. split; [intros (_ & _ & [? ?]); done | by eexists]. }
  left. by repeat split.
Qed.

Lemma print_areas_ok (items : list Item.t) :
  Forall printable items -> init_database.print_areas items = ret tt.
Proof.
  induction 1 as [| item items Hitem _ IH]; [done |]. cbn [init_database.print_areas].
  destruct (print_area_cases item) as [[_ ->] | [Hno _]]; done.
Qed.

Lemma print_areas_fails (items : list Item.t) :
  Exists (fun item => ~ printable item) items ->
  exists k, init_database.print_areas items = raise (KeyError k).
Proof.
  induction items as [| item items IH]; intros Hex; [by apply Exists_nil in Hex |].
  cbn [init_database.print_areas].
  destruct (print_area_cases item) as [[Hok ->] | [_ [k ->]]]; [| by exists k].
  apply Exists_cons in Hex as [Hno | Hex]; [done |]. by apply IH.
Qed.

Lemma all_printable_sample_table (n : Z) : all_printable (sample_table n).
Proof.
  intros key row Hrow _. unfold sample_table, dynamodb.put_item in Hrow.
  apply lookup_insert_Some in Hrow as [[_ <-] | [_ Hrow]]; [by repeat split |].
  apply lookup_insert_Some in Hrow as [[_ <-] | [_ Hrow]]; [by repeat split |].
  by rewrite lookup_empty in Hrow.
Qed.

(** X21. The check reads the name, the count and the capacity of every
    row it scans.  On a table whose rows carry their key and have these
    three attributes, the check that follows a seeding which ended
    succeeds: the scan finds at least the eight initial areas.  A scanned
    row that lacks one of them, such as the row that an apply leaves for
    an area nobody registered, makes the check raise [KeyError], also
    after the seeding. *)
Theorem verify_setup_after_seeding (faults : string -> init_database.Faults)
    (now : string) (tbl : Table) :
  (keyed tbl -> all_printable tbl ->
   (init_database.seed_areas faults now tbl).2 = ret tt ->
   init_database.verify_setup
     (init_database.table (init_database.seed_areas faults now tbl).1) = ret true) /\
  (forall key row,
     tbl !! key = Some row -> Item.SK row = "METADATA"%string -> ~ printable row ->
     key ∉ (fun cfg => area_key (init_database.area_id cfg)) <$>
             init_database.INITIAL_AREAS ->
     exists k,
       init_database.verify_setup
         (init_database.table (init_database.seed_areas faults now tbl).1) =
       raise (KeyError k)).
Proof.
  split.
  - intros Hk Hp Hend.
    assert (keyed (init_database.table (init_database.seed_areas faults now tbl).1))
      as Hks by (by apply keyed_seed_list).
    assert (all_printable
              (init_database.table (init_database.seed_areas faults now tbl).1))
      as Hps by (by apply all_printable_seed_list).
    pose proof (fun cfg => seeded_initial_area faults now tbl cfg Hend) as Hreg.
    clear Hend.
    generalize dependent (init_database.table (init_database.seed_areas faults now tbl).1).
    intros seeded Hks Hps Hreg.
    unfold init_database.verify_setup. cbv zeta.
    rewrite print_areas_ok.
    2: { apply Forall_forall. intros row Hin. apply scan_elem in Hin as [Hsk [key Hrow]].
         apply bool_decide_eq_true in Hsk. by apply (Hps key). }
    cbn [bind ret]. unfold ret. do 2 f_equal. apply Nat.leb_le.
    rewrite <- (length_fmap (fun cfg => area_key (init_database.area_id cfg))
                  init_database.INITIAL_AREAS).
    apply scan_length_keys; [compute_done |].
    intros key Hin. apply list_elem_of_fmap in Hin as (cfg & -> & Hin).
    destruct (Hreg cfg Hin) as (row & Hrow & _). unfold stored in Hrow.
    exists row. split; [exact Hrow |].
    apply bool_decide_eq_true. apply Hks in Hrow. unfold area_key in Hrow. by simplify_eq.
  - intros key row Hrow Hsk Hno Hkey.
    assert (init_database.table (init_database.seed_areas faults now tbl).1 !! key =
            Some row) as Hrow'.
    { unfold init_database.seed_areas. by rewrite seed_list_other. }
    generalize dependent (init_database.table (init_database.seed_areas faults now tbl).1).
    intros seeded Hrow'.
    unfold init_database.verify_setup. cbv zeta.
    destruct (print_areas_fails
                (dynamodb.scan (fun i => bool_decide (Item.SK i = "METADATA"%string)) seeded))
      as [k Hfail].
    { apply Exists_exists. exists row. split; [| done]. apply scan_elem.
      split; [by apply bool_decide_eq_true | by exists key]. }
    exists k. by rewrite Hfail.
Qed.

Lemma verify_setup_sample :
  init_database.verify_setup
    (init_database.table (init_database.seed_areas all_answer later (sample_table 45)).1) =
    ret true /\
  exists k,
    init_database.verify_setup
      (init_database.table
         (init_database.seed_areas all_answer later
            (capacity_updater.update_capacity "sauna" "enter" 1 later
               (sample_table 45)).1).1) =
    raise (KeyError k).
Proof.
  split.
  - apply (verify_setup_after_seeding all_answer later (sample_table 45));
      [apply keyed_sample_table | apply all_printable_sample_table |
       vm_compute; reflexivity].
  - apply (verify_setup_after_seeding all_answer later
             (capacity_updater.update_capacity "sauna" "enter" 1 later
                (sample_table 45)).1) with (key := area_key "sauna") (row := sauna_row).
    + vm_compute. reflexivity.
    + reflexivity.
    + intros ([nm Hnm] & _). discriminate Hnm.
    + compute_done.
Defined.

(** ** Not found *)

(** X22. On a connected table GET /api/capacity/{area_id} answers "not
    found" exactly when there is no row under the area's key. *)
Theorem not_found_iff_no_row (tbl : Table) (a now : string) :
  main.get_area_capacity a (with_table tbl) now = inl (main.not_found a) <->
  stored tbl a = None.
Proof.
  split; [| by intros Hnone; apply get_area_unknown].
  unfold main.get_area_capacity, database.get_area, dynamodb.get_item, stored.
  cbn [with_table database.table].
  destruct (tbl !! area_key a) as [row |]; [| done].
  destruct (database.to_area row now); cbn; unfold main.not_found; intros Heq;
    simplify_eq.
Qed.

(** X23. On a connected table neither POST /api/update nor POST /api/reset
    ever answers 404: their requests create the row they do not find, so
    the "not found" branch of both endpoints cannot be taken. *)
Theorem writes_never_answer_not_found (tbl : Table) (now : string) :
  (forall request e,
     (main.update_capacity request (with_table tbl) now).2 = inl e ->
     main.status_code e <> 404) /\
  (forall a v e,
     (main.reset_area_capacity a v (with_table tbl) now).2 = inl e ->
     main.status_code e <> 404).
Proof.
  split.
  - intros request e. unfold main.update_capacity.
    destruct (decide _); [| by cbn; intros Heq; simplify_eq].
    rewrite update_capacity_eq. cbv zeta. destruct (_ <? 0).
    + rewrite set_capacity_eq. cbv zeta. cbn [fst snd].
      destruct (database.to_area _ now) as [e1 | a1]; cbn;
        [by intros Heq; simplify_eq |].
      destruct (database.to_area _ now) as [e2 | a2]; cbn;
        by intros Heq; simplify_eq.
    + destruct (database.to_area _ now) as [e1 | a1]; cbn;
        by intros Heq; simplify_eq.
  - intros a v e. unfold main.reset_area_capacity. rewrite set_capacity_eq. cbv zeta.
    destruct (database.to_area _ now) as [e1 | a1]; cbn; by intros Heq; simplify_eq.
Qed.

Lemma reset_unknown_area_answers_500 :
  (main.reset_area_capacity "sauna" 3 (with_table (sample_table 45)) later).2 =
    inl {| main.status_code := 500;
           main.http_detail :=
             main.Failed "Failed to reset capacity: " (KeyError "area_id") |} /\
  500 <> 404.
Proof.
  split; [vm_compute; reflexivity |].
  apply (proj2 (writes_never_answer_not_found (sample_table 45) later) "sauna" 3
           {| main.status_code := 500;
              main.http_detail :=
                main.Failed "Failed to reset capacity: " (KeyError "area_id") |}).
  vm_compute. reflexivity.
Defined.

(** X24. A manager whose connection failed ([self.table] is [None]) writes
    nothing: reads and writes answer 404, the list of all areas is the mock
    data, and [create_area] raises. *)
Theorem disconnected_manager (a now : string) :
  let db := {| database.table := None |} in
  main.get_area_capacity a db now = inl (main.not_found a) /\
  main.get_all_capacity db now =
    inr (CapacityResponse.make now (main.get_mock_capacity_data now)) /\
  (forall v, main.reset_area_capacity a v db now = (db, inl (main.not_found a))) /\
  (forall action c ts,
     action = "enter"%string \/ action = "exit"%string ->
     main.update_capacity (UpdateCapacityRequest.make a action c ts) db now =
       (db, inl (main.not_found a))) /\
  (forall nm cap open,
     database.create_area db a nm cap open now =
       (db, inl (Exception "DynamoDB table not initialized"))).
Proof.
  cbv zeta. repeat split.
  intros action c ts Haction. unfold main.update_capacity.
  cbn [UpdateCapacityRequest.action UpdateCapacityRequest.area_id].
  by rewrite decide_True.
Qed.

Lemma disconnected_update_pool :
  main.update_capacity (UpdateCapacityRequest.make "pool" "exit" 2 None)
    {| database.table := None |} later =
  ({| database.table := None |}, inl (main.not_found "pool")).
Proof.
  apply (disconnected_manager "pool" later). by right.
Defined.
